(** * ai-terminal-chess: the session logic of [main.py], verified

    The development embeds [ChessGame] from [src/main.py]: construction and
    the Stockfish probe, [make_move], [computer_move], [undo_move],
    [show_result] and one pass of the body of the loop in [play].

    Layout:
    - [PyStr]: the methods of Python's [str] that [main.py] calls;
    - [RulesOracle]: the part of [chess.Board] (python-chess) the program
      calls, as an interface; the board's own move stack is modelled
      concretely on top of it;
    - the session ([Game], [make_move], ...), generic in the oracle;
    - [PyChess]: an executable instance of the oracle (chess rules and SAN
      parsing as python-chess implements them), used for the scenarios that
      name concrete positions and concrete move texts;
    - the theorems. *)

From Stdlib Require Import List String Ascii Bool Arith ZArith Lia.
From Stdlib Require Import DecimalString.
Import ListNotations.
Local Open Scope string_scope.
Local Open Scope list_scope.
Local Open Scope nat_scope.

Set Implicit Arguments.

(** Python's [==] on [str]. *)
Local Infix "==" := String.eqb (at level 70, no associativity).

(** ** Python strings

    A Python [str] is modelled as a [string] whose characters are the code
    points below 256.  Only the methods used by [main.py] appear here. *)
Module PyStr.

(** [str.isspace] on one code point below 256: TAB..CR, FS..US, SPACE,
    NEL and NBSP.  (The white space above U+00FF is outside the strings
    modelled.) *)
Definition isspace (c : ascii) : bool :=
  let n := nat_of_ascii c in
  ((9 <=? n) && (n <=? 13)) || ((28 <=? n) && (n <=? 32))
  || (n =? 133) || (n =? 160).

(** [str.lower] on one code point below 256: A-Z and the Latin-1 capitals
    (0xC0-0xDE but the multiplication sign 0xD7) move up by 32. *)
Definition lower_char (c : ascii) : ascii :=
  let n := nat_of_ascii c in
  if ((65 <=? n) && (n <=? 90))
     || ((192 <=? n) && (n <=? 222) && negb (n =? 215))
  then ascii_of_nat (n + 32) else c.

Fixpoint lower (s : string) : string :=
  match s with
  | EmptyString => EmptyString
  | String c r => String (lower_char c) (lower r)
  end.

Fixpoint lstrip (s : string) : string :=
  match s with
  | String c r => if isspace c then lstrip r else s
  | EmptyString => EmptyString
  end.

(** Drops the white space at the end: a character is kept when it is not
    a space or when something is kept after it. *)
Fixpoint rstrip (s : string) : string :=
  match s with
  | EmptyString => EmptyString
  | String c r =>
      match rstrip r with
      | EmptyString => if isspace c then EmptyString else String c EmptyString
      | r' => String c r'
      end
  end.

(** [s.strip()] *)
Definition strip (s : string) : string := rstrip (lstrip s).

(** [s.startswith(p)] *)
Definition startswith (s p : string) : bool := String.prefix p s.

(** [s.split()]: the maximal runs of characters that are not white space.
    [cur] is the run being read, in reverse. *)
Fixpoint split_aux (s : string) (cur : list ascii) : list string :=
  let flush rest :=
    match cur with
    | [] => rest
    | _ => string_of_list_ascii (rev cur) :: rest
    end in
  match s with
  | EmptyString => flush []
  | String c r =>
      if isspace c then flush (split_aux r []) else split_aux r (c :: cur)
  end.

Definition split (s : string) : list string := split_aux s [].

(** Removes [p] from the front of [s] when it is there. *)
Fixpoint drop_prefix (p s : string) : option string :=
  match p, s with
  | EmptyString, _ => Some s
  | String a p', String b s' =>
      if Ascii.eqb a b then drop_prefix p' s' else None
  | String _ _, EmptyString => None
  end.

(** [s.replace(old, new)] for a non-empty [old]: every occurrence from the
    left, none of them overlapping. *)
Fixpoint replace_fuel (fuel : nat) (old new s : string) : string :=
  match fuel with
  | O => s
  | S fuel' =>
      match drop_prefix old s with
      | Some rest => String.append new (replace_fuel fuel' old new rest)
      | None =>
          match s with
          | EmptyString => EmptyString
          | String c r => String c (replace_fuel fuel' old new r)
          end
      end
  end.

Definition replace (s old new : string) : string :=
  replace_fuel (S (String.length s)) old new s.

End PyStr.

(** ** What the program sees of python-chess

    [main.py] imports [chess] (python-chess), which is not part of the
    repository.  The values it exchanges with the library are modelled
    directly; the chess rules themselves are an interface, [RulesOracle],
    with one executable instance given further down. *)

Inductive Color := White | Black.

Definition opposite (c : Color) : Color :=
  match c with White => Black | Black => White end.

(** The name the program prints for a side. *)
Definition color_name (c : Color) : string :=
  match c with White => "White" | Black => "Black" end.

Inductive PieceType := Pawn | Knight | Bishop | Rook | Queen | King.

(** [chess.Move]: squares are numbered 0 (a1) to 63 (h8). *)
Record Move := mkMove {
  from_square : nat;
  to_square : nat;
  promotion : option PieceType
}.

(** The exceptions of [Board.parse_san]; each is a subclass of
    [ValueError]. *)
Inductive SanFailure := InvalidMoveError | IllegalMoveError | AmbiguousMoveError.

Inductive SanResult :=
| SanMove (m : Move)
| SanRaises (e : SanFailure).

(** [chess.Board] keeps, next to the position, the moves made and a snapshot
    of the position before each of them ([move_stack] and [_stack], two lists
    that grow and shrink together): one list of pairs here, oldest first. *)
Record BoardOf (P : Type) := mkBoard {
  position : P;
  stack : list (P * Move)
}.

Definition move_stack {P} (b : BoardOf P) : list Move := map snd (stack b).

(** The position-level queries and the position transformer of
    python-chess. *)
Class RulesOracle (Position : Type) := {
  starting_position : Position;
  turn : Position -> Color;
  parse_san : Position -> string -> SanResult;
  generate_legal_moves : Position -> list Move;
  is_legal : Position -> Move -> bool;
  (** what [Board.push] does to the position *)
  apply_move : Position -> Move -> Position;
  is_checkmate : Position -> bool;
  is_stalemate : Position -> bool;
  is_insufficient_material : Position -> bool;
  is_fifty_moves : Position -> bool;
  is_repetition : BoardOf Position -> bool;
  is_game_over : BoardOf Position -> bool
}.

(** [Move.null()], the move that is false in Python. *)
Definition null_move : Move := mkMove 0 0 None.

Definition is_null (m : Move) : bool :=
  match m with
  | mkMove 0 0 None => true
  | _ => false
  end.

(** [list.pop()]: the last element and the rest, [None] for [IndexError]. *)
Definition py_pop {A} (l : list A) : option (A * list A) :=
  match rev l with
  | [] => None
  | x :: r => Some (x, rev r)
  end.

(** Python exceptions that can leave the modelled code: the subscripts and
    [pop] of the program, and [input] at the end of the input.  An
    interrupt from the keyboard and the errors of [console.print] are not
    modelled. *)
Inductive Exn := IndexError | EOFError.

(** The messages of [main.py], verbatim. *)
Module Msg.
Definition stockfish_not_found :=
  "[red]Stockfish engine not found. Install Stockfish or add to PATH.[/red]".
Definition defaulting_to_pvp :=
  "[yellow]Defaulting to Player vs Player mode.[/yellow]".
Definition illegal_move := "[red]Illegal move! Try again.[/red]".
Definition invalid_notation :=
  "[red]Invalid move notation! Use Standard Algebraic Notation.[/red]".
Definition computer_move_error (e : string) :=
  String.append "[red]Computer move error: " (String.append e "[/red]").
Definition switched_to (mode : string) :=
  String.append "[green]Switched to "
    (String.append mode " piece representation.[/green]").
Definition invalid_piece_mode :=
  "[red]Invalid piece mode. Use 'unicode' or 'letters'.[/red]".
Definition last_move_undone := "[yellow]Last move undone.[/yellow]".
Definition no_moves_to_undo := "[red]No moves to undo![/red]".
Definition checkmate (winner : string) :=
  String.append "[bold green]Checkmate! "
    (String.append winner " wins![/bold green]").
Definition stalemate := "[yellow]Stalemate! The game is a draw.[/yellow]".
Definition insufficient_material :=
  "[yellow]Insufficient material. The game is a draw.[/yellow]".
Definition fifty_moves :=
  "[yellow]Fifty-move rule. The game is a draw.[/yellow]".
Definition repetition :=
  "[yellow]Threefold repetition. The game is a draw.[/yellow]".
(** the text of the [AttributeError] of [push(None)] *)
Definition none_has_no_from_square :=
  "'NoneType' object has no attribute 'from_square'".
End Msg.

(** ** The session: class [ChessGame] *)
Section Session.

Variable Position : Type.
Context {oracle : RulesOracle Position}.

Definition Board := BoardOf Position.

(** [chess.Board()] *)
Definition new_board : Board := mkBoard starting_position [].

(** [Board.push]: remember the position and the move, then move. *)
Definition push (b : Board) (m : Move) : Board :=
  mkBoard (apply_move (position b) m) (stack b ++ [(position b, m)]).

(** [Board.pop]: restore the last remembered position; [None] stands for
    the [IndexError] of an empty stack. *)
Definition pop (b : Board) : option (Move * Board) :=
  match py_pop (stack b) with
  | None => None
  | Some ((p, m), rest) => Some (m, mkBoard p rest)
  end.

(** [Board.peek] *)
Definition peek (b : Board) : option Move := last (map Some (move_stack b)) None.

(** What the program writes to the terminal.  Clearing the screen is not
    modelled. *)
Inductive Output :=
| Print (markup : string)        (* console.print of a line of markup *)
| HelpPanel                      (* console.print of the help panel *)
| BoardPanel (b : Board) (last_move : option Move)
             (legal_moves : option (list Move)) (piece_mode : string)
                                 (* ChessUI.render_board *)
| Prompt (text : string).        (* the prompt of an input() call *)

(** *** The engine

    A [chess.engine.SimpleEngine] as the program uses it: [configure] with
    the skill level, which may raise, and [play], whose reply depends on
    the board it is sent.  The reply is a function of the board: an engine
    that answers the same board differently from one call to the next is
    not covered. *)
Inductive EngineReply :=
| BestMove (m : option Move)       (* bestmove, or bestmove (none) *)
| EngineFailure (e : string).      (* the process or the protocol fails *)

Record Engine := mkEngine {
  accepts_skill_level : Z -> bool;
  bestmove : Board -> EngineReply
}.

Inductive PlayOutcome :=
| PlayResult (m : option Move)
| PlayRaises (e : string).

(** [engine.play(board, limit)]: python-chess plays the reply on its own
    copy of the board with [push_uci], so a move that is neither legal nor
    the null move raises [EngineError] and never reaches the caller.  (The
    text of that error, which names the move and the position, is
    shortened here.) *)
Definition engine_play (e : Engine) (b : Board) : PlayOutcome :=
  match bestmove e b with
  | EngineFailure err => PlayRaises err
  | BestMove None => PlayResult None
  | BestMove (Some m) =>
      if is_null m || is_legal (position b) m
      then PlayResult (Some m)
      else PlayRaises "illegal uci"
  end.

(** What the constructor asks of the machine it runs on. *)
Record Host := mkHost {
  platform_system : string;                 (* platform.system() *)
  which_stockfish : option string;          (* shutil.which('stockfish') *)
  popen_uci : string -> option Engine       (* None: popen_uci raises *)
}.

Record Game := mkGame {
  board : Board;
  game_mode : string;
  difficulty : Z;
  move_history : list Move;
  engine : option Engine;
  piece_mode : string
}.

Definition set_board (g : Game) (b : Board) : Game :=
  mkGame b (game_mode g) (difficulty g) (move_history g) (engine g) (piece_mode g).
Definition set_game_mode (g : Game) (m : string) : Game :=
  mkGame (board g) m (difficulty g) (move_history g) (engine g) (piece_mode g).
Definition set_move_history (g : Game) (h : list Move) : Game :=
  mkGame (board g) (game_mode g) (difficulty g) h (engine g) (piece_mode g).
Definition set_engine (g : Game) (e : option Engine) : Game :=
  mkGame (board g) (game_mode g) (difficulty g) (move_history g) e (piece_mode g).
Definition set_piece_mode (g : Game) (m : string) : Game :=
  mkGame (board g) (game_mode g) (difficulty g) (move_history g) (engine g) m.

(** [get_stockfish_paths] *)
Definition get_stockfish_paths (h : Host) : list string :=
  let common_names := ["stockfish"; "stockfish.exe"] in
  let paths :=
    if platform_system h == "Windows" then
      ["C:\Program Files\Stockfish\stockfish.exe";
       "C:\Program Files (x86)\Stockfish\stockfish.exe"]
    else if platform_system h == "Darwin" then
      ["/usr/local/bin/stockfish";
       "/opt/homebrew/bin/stockfish";
       "/Applications/Stockfish.app/Contents/MacOS/stockfish"]
    else if platform_system h == "Linux" then
      ["/usr/bin/stockfish"; "/usr/local/bin/stockfish"]
    else [] in
  let paths :=
    match which_stockfish h with
    | Some system_path =>
        match system_path with
        | EmptyString => paths
        | _ => paths ++ [system_path]
        end
    | None => paths
    end in
  flat_map
    (fun path =>
       path :: map (fun name => PyStr.replace path "stockfish" name) common_names)
    paths.

(** The [for] loop of [setup_stockfish].  [self.engine] is assigned as soon
    as [popen_uci] returns, before [configure] is tried; the result says
    whether the loop left through [return]. *)
Fixpoint probe (h : Host) (d : Z) (paths : list string) (eng : option Engine)
  : bool * option Engine :=
  match paths with
  | [] => (false, eng)
  | path :: rest =>
      match popen_uci h path with
      | None => probe h d rest eng
      | Some e =>
          if accepts_skill_level e d then (true, Some e)
          else probe h d rest (Some e)
      end
  end.

(** [setup_stockfish] *)
Definition setup_stockfish (h : Host) (g : Game) : Game * list Output :=
  let stockfish_paths := get_stockfish_paths h in
  match probe h (difficulty g) stockfish_paths (engine g) with
  | (true, eng) => (set_engine g eng, [])
  | (false, eng) =>
      (set_game_mode (set_engine g eng) "pvp",
       [Print Msg.stockfish_not_found; Print Msg.defaulting_to_pvp])
  end.

(** [ChessGame.__init__] *)
Definition init (h : Host) (mode : string) (d : Z) : Game * list Output :=
  let g := mkGame new_board mode d [] None "unicode" in
  if mode == "pvc" then setup_stockfish h g else (g, []).

(** [make_move]: the result, the game afterwards and what was printed. *)
Definition make_move (g : Game) (move_san : string)
  : bool * Game * list Output :=
  match parse_san (position (board g)) move_san with
  | SanMove move =>
      if is_legal (position (board g)) move then
        (true,
         set_board (set_move_history g (move_history g ++ [move]))
                   (push (board g) move),
         [])
      else (false, g, [Print Msg.illegal_move])
  | SanRaises _ => (false, g, [Print Msg.invalid_notation])
  end.

(** [computer_move].  When the engine answers without a move,
    [self.board.push(None)] raises [AttributeError] on its first line,
    before the board is touched.  The handler of line 203 prints the error
    text inside rich markup; a text that holds markup of its own can make
    that [console.print] raise, which is not modelled: here the line is
    always printed. *)
Definition computer_move (g : Game) : option Move * Game * list Output :=
  match game_mode g == "pvc", engine g with
  | true, Some e =>
      match engine_play e (board g) with
      | PlayResult (Some m) => (Some m, set_board g (push (board g) m), [])
      | PlayResult None =>
          (None, g, [Print (Msg.computer_move_error Msg.none_has_no_from_square)])
      | PlayRaises err => (None, g, [Print (Msg.computer_move_error err)])
      end
  | _, _ => (None, g, [])
  end.

(** [undo_move]: [inr] when [self.board.pop()] raises. *)
Definition undo_move (g : Game) : (Game * list Output) + Exn :=
  match move_history g with
  | [] => inl (g, [Print Msg.no_moves_to_undo])
  | _ :: _ =>
      match pop (board g) with
      | None => inr IndexError
      | Some (_, b) =>
          inl (set_move_history (set_board g b) (removelast (move_history g)),
               [Print Msg.last_move_undone])
      end
  end.

(** [show_result] *)
Definition show_result (g : Game) : list Output :=
  let p := position (board g) in
  if is_checkmate p then
    let winner := match turn p with White => "Black" | Black => "White" end in
    [Print (Msg.checkmate winner)]
  else if is_stalemate p then [Print Msg.stalemate]
  else if is_insufficient_material p then [Print Msg.insufficient_material]
  else if is_fifty_moves p then [Print Msg.fifty_moves]
  else if is_repetition (board g) then [Print Msg.repetition]
  else [].

(** *** The loop of [play] *)

(** The two local variables of [play]. *)
Record Locals := mkLocals {
  last_move : option Move;
  legal_moves : option (list Move)
}.

Inductive Control := Continue | Break.

Definition current_player (g : Game) : string :=
  match turn (position (board g)) with
  | White => "White"
  | Black => "Black"
  end.

(** Lines 248-252: the two branches on the mode named by a [pieces]
    command. *)
Definition switch_pieces (g : Game) (mode : string) : Game * list Output :=
  if existsb (String.eqb mode) ["unicode"; "letters"] then
    (set_piece_mode g mode, [Print (Msg.switched_to mode)])
  else (g, [Print Msg.invalid_piece_mode]).

(** One pass of the [while] loop is given the lines still to be read from
    the terminal and returns, unless an exception escapes, how the pass
    ends ([continue] and falling through both give [Continue]), the game,
    the locals, the lines left and what was written. *)
Definition Pass : Type :=
  (Control * Game * Locals * list string * list Output) + Exn.

(** The prompt of line 234. *)
Definition turn_prompt (g : Game) : Output :=
  Prompt (String.append (current_player g) "'s turn. Enter move (or 'help'): ").

(** Lines 234-259: from the [input] call to the end of the loop body. *)
Definition player_turn (g : Game) (loc : Locals) (stdin : list string) : Pass :=
  match stdin with
  | [] => inr EOFError
  | line :: stdin =>
      let asked := turn_prompt g in
      let move_input := PyStr.strip line in
      if PyStr.lower move_input == "help" then
        match stdin with
        | [] => inr EOFError
        | _ :: stdin =>
            inl (Continue, g, loc, stdin,
                 [asked; HelpPanel; Prompt "Press Enter to continue..."])
        end
      else if existsb (String.eqb (PyStr.lower move_input)) ["quit"; "exit"] then
        inl (Break, g, loc, stdin, [asked])
      else if PyStr.lower move_input == "undo" then
        match undo_move g with
        | inl (g', out) => inl (Continue, g', loc, stdin, asked :: out)
        | inr e => inr e
        end
      else if PyStr.startswith (PyStr.lower move_input) "pieces " then
        match nth_error (PyStr.split (PyStr.lower move_input)) 1 with
        | None => inr IndexError
        | Some mode =>
            let '(g', out) := switch_pieces g mode in
            inl (Continue, g', loc, stdin, asked :: out)
        end
      else
        let '(move_result, g', out) := make_move g move_input in
        if move_result then
          inl (Continue, g',
               mkLocals (peek (board g'))
                        (Some (generate_legal_moves (position (board g')))),
               stdin, asked :: out)
        else inl (Continue, g', loc, stdin, asked :: out)
  end.

(** Lines 212-259: the body of the [while] loop. *)
Definition loop_body (g : Game) (loc : Locals) (stdin : list string) : Pass :=
  let drawn :=
    BoardPanel (board g) (last_move loc) (legal_moves loc) (piece_mode g) in
  if (game_mode g == "pvc") && (current_player g == "Black") then
    let '(m, g', out) := computer_move g in
    inl (Continue, g', mkLocals m (legal_moves loc), stdin, drawn :: out)
  else
    match player_turn g loc stdin with
    | inl (c, g', loc', stdin', out) => inl (c, g', loc', stdin', drawn :: out)
    | inr e => inr e
    end.

Inductive RunEnd :=
| Finished (g : Game)            (* [play] returned *)
| Raised (e : Exn)               (* an exception left [play] *)
| StillRunning (g : Game) (loc : Locals) (stdin : list string).

(** [play], for at most [fuel] passes of its loop. *)
Fixpoint play_loop (fuel : nat) (g : Game) (loc : Locals) (stdin : list string)
  : list Output * RunEnd :=
  let game_over g :=
    Print (String (ascii_of_nat 10) "[bold green]Game Over![/bold green]")
    :: show_result g in
  match fuel with
  | O => ([], StillRunning g loc stdin)
  | S fuel' =>
      if is_game_over (board g) then (game_over g, Finished g)
      else
        match loop_body g loc stdin with
        | inr e => ([], Raised e)
        | inl (Break, g', _, _, out) => (out ++ game_over g', Finished g')
        | inl (Continue, g', loc', stdin', out) =>
            let '(out', fin) := play_loop fuel' g' loc' stdin' in
            (out ++ out', fin)
        end
  end.

Definition play (fuel : nat) (g : Game) (stdin : list string) :=
  play_loop fuel g (mkLocals None None) stdin.

(** *** Vocabulary of the properties *)

(** [make_move] on each text in turn; [None] as soon as one is rejected. *)
Fixpoint make_moves (g : Game) (texts : list string) : option Game :=
  match texts with
  | [] => Some g
  | text :: rest =>
      match make_move g text with
      | (true, g', _) => make_moves g' rest
      | (false, _, _) => None
      end
  end.

(** [undo_move], [n] times; [None] when one of the calls raises. *)
Fixpoint undo_times (n : nat) (g : Game) : option Game :=
  match n with
  | O => Some g
  | S n' =>
      match undo_move g with
      | inl (g', _) => undo_times n' g'
      | inr _ => None
      end
  end.

(** The history of the session lists the moves made on the board. *)
Definition in_step (g : Game) : Prop := move_history g = move_stack (board g).

(** The text the loop compares with its command words. *)
Definition command_text (line : string) : string := PyStr.lower (PyStr.strip line).

(** The command words of the loop that do not touch the game. *)
Definition is_quiet_command (c : string) : bool :=
  (c == "help") || (c == "quit") || (c == "exit") || PyStr.startswith c "pieces ".

Definition is_command (c : string) : bool := is_quiet_command c || (c == "undo").

(** The ends of a game, as the specification names them. *)
Inductive TerminationReason :=
| Checkmate (winner : Color)
| Stalemate
| InsufficientMaterial
| FiftyMoves
| ThreefoldRepetition.

(** The specification's [is_terminal]: the first of the five conditions,
    in the order the specification lists them, that the oracle reports;
    on checkmate the winner is the side that is not to move. *)
Definition is_terminal (b : Board) : option TerminationReason :=
  let p := position b in
  option_map snd
    (find fst
       [(is_checkmate p, Checkmate (opposite (turn p)));
        (is_stalemate p, Stalemate);
        (is_insufficient_material p, InsufficientMaterial);
        (is_fifty_moves p, FiftyMoves);
        (is_repetition b, ThreefoldRepetition)]).

(** The line [show_result] prints for each of them. *)
Definition announce (r : TerminationReason) : Output :=
  match r with
  | Checkmate winner => Print (Msg.checkmate (color_name winner))
  | Stalemate => Print Msg.stalemate
  | InsufficientMaterial => Print Msg.insufficient_material
  | FiftyMoves => Print Msg.fifty_moves
  | ThreefoldRepetition => Print Msg.repetition
  end.

End Session.

Arguments Print {Position} markup.
Arguments HelpPanel {Position}.
Arguments Prompt {Position} text.
Arguments new_board {Position oracle}.
Arguments Raised {Position} e.
Arguments announce {Position} r.

(** ** An executable oracle: the rules of chess as python-chess plays them

    python-chess is a dependency of the repository, not part of it; this
    module follows the behaviour of its [chess.Board] (release 1.x, standard
    chess): squares instead of bit boards, the same moves, the same
    exceptions.  It is what the scenarios with concrete positions and move
    texts are evaluated on. *)
Module PyChess.

Record Piece := mkPiece { piece_type : PieceType; color : Color }.

Record Pos := mkPos {
  squares : list (option Piece);     (* 64 entries, a1 b1 ... h8 *)
  to_move : Color;                   (* Board.turn *)
  castling_rights : list nat;        (* the rooks that may still castle *)
  ep_square : option nat;
  halfmove_clock : nat;
  fullmove_number : nat
}.

Definition color_eqb (a b : Color) : bool :=
  match a, b with
  | White, White | Black, Black => true
  | _, _ => false
  end.

Definition piece_type_eqb (a b : PieceType) : bool :=
  match a, b with
  | Pawn, Pawn | Knight, Knight | Bishop, Bishop
  | Rook, Rook | Queen, Queen | King, King => true
  | _, _ => false
  end.

Definition piece_eqb (a b : Piece) : bool :=
  piece_type_eqb (piece_type a) (piece_type b) && color_eqb (color a) (color b).

Definition option_eqb {A} (eqb : A -> A -> bool) (a b : option A) : bool :=
  match a, b with
  | Some x, Some y => eqb x y
  | None, None => true
  | _, _ => false
  end.

Fixpoint list_eqb {A} (eqb : A -> A -> bool) (a b : list A) : bool :=
  match a, b with
  | [], [] => true
  | x :: a', y :: b' => eqb x y && list_eqb eqb a' b'
  | _, _ => false
  end.

Definition move_eqb (a b : Move) : bool :=
  (from_square a =? from_square b) && (to_square a =? to_square b)
  && option_eqb piece_type_eqb (promotion a) (promotion b).

Definition square_file (sq : nat) : nat := sq mod 8.
Definition square_rank (sq : nat) : nat := sq / 8.
Definition square (file rank : nat) : nat := rank * 8 + file.

Definition A1 := 0.
Definition C1 := 2.
Definition D1 := 3.
Definition E1 := 4.
Definition F1 := 5.
Definition G1 := 6.
Definition H1 := 7.
Definition A8 := 56.
Definition C8 := 58.
Definition D8 := 59.
Definition E8 := 60.
Definition F8 := 61.
Definition G8 := 62.
Definition H8 := 63.

Definition piece_at (sqs : list (option Piece)) (sq : nat) : option Piece :=
  nth sq sqs None.

Fixpoint set_at (sqs : list (option Piece)) (sq : nat) (v : option Piece)
  : list (option Piece) :=
  match sqs, sq with
  | [], _ => []
  | _ :: r, O => v :: r
  | x :: r, S n => x :: set_at r n v
  end.

Definition has (sqs : list (option Piece)) (sq : nat) (t : PieceType) (c : Color)
  : bool :=
  option_eqb piece_eqb (piece_at sqs sq) (Some (mkPiece t c)).

Definition occupied_by (sqs : list (option Piece)) (c : Color) (sq : nat) : bool :=
  match piece_at sqs sq with
  | Some p => color_eqb (color p) c
  | None => false
  end.

Definition vacant (sqs : list (option Piece)) (sq : nat) : bool :=
  match piece_at sqs sq with
  | Some _ => false
  | None => true
  end.

(** The square [df] files and [dr] ranks away, when it is on the board. *)
Definition shift (sq : nat) (d : Z * Z) : option nat :=
  let f := (Z.of_nat (square_file sq) + fst d)%Z in
  let r := (Z.of_nat (square_rank sq) + snd d)%Z in
  if ((0 <=? f) && (f <? 8) && (0 <=? r) && (r <? 8))%Z
  then Some (Z.to_nat (r * 8 + f)) else None.

Definition knight_steps : list (Z * Z) :=
  [(1, 2); (2, 1); (2, -1); (1, -2); (-1, -2); (-2, -1); (-2, 1); (-1, 2)]%Z.
Definition king_steps : list (Z * Z) :=
  [(1, 0); (1, 1); (0, 1); (-1, 1); (-1, 0); (-1, -1); (0, -1); (1, -1)]%Z.
Definition rook_steps : list (Z * Z) := [(1, 0); (0, 1); (-1, 0); (0, -1)]%Z.
Definition bishop_steps : list (Z * Z) := [(1, 1); (-1, 1); (-1, -1); (1, -1)]%Z.

(** Forward for a pawn of colour [c]. *)
Definition forward (c : Color) : Z := match c with White => 1 | Black => -1 end%Z.

(** The squares a sliding piece reaches from [sq] in direction [d]: up to
    and including the first occupied one. *)
Fixpoint ray (sqs : list (option Piece)) (sq : nat) (d : Z * Z) (fuel : nat)
  : list nat :=
  match fuel with
  | O => []
  | S fuel' =>
      match shift sq d with
      | None => []
      | Some s => if vacant sqs s then s :: ray sqs s d fuel' else [s]
      end
  end.

Definition steps_of (t : PieceType) : list (Z * Z) :=
  match t with
  | Knight => knight_steps
  | King => king_steps
  | Rook => rook_steps
  | Bishop => bishop_steps
  | Queen => rook_steps ++ bishop_steps
  | Pawn => []
  end.

Definition slides (t : PieceType) : bool :=
  match t with
  | Rook | Bishop | Queen => true
  | _ => false
  end.

(** [Board.attacks_mask]: the squares attacked by the piece on [sq]. *)
Definition attacks (sqs : list (option Piece)) (sq : nat) : list nat :=
  match piece_at sqs sq with
  | None => []
  | Some (mkPiece Pawn c) =>
      flat_map (fun df => match shift sq (df, forward c) with
                          | Some s => [s]
                          | None => []
                          end) [(-1)%Z; 1%Z]
  | Some (mkPiece t _) =>
      if slides t then flat_map (fun d => ray sqs sq d 7) (steps_of t)
      else flat_map (fun d => match shift sq d with
                              | Some s => [s]
                              | None => []
                              end) (steps_of t)
  end.

Definition all_squares : list nat := seq 0 64.

(** [Board.is_attacked_by] *)
Definition is_attacked_by (sqs : list (option Piece)) (c : Color) (sq : nat)
  : bool :=
  existsb (fun s => occupied_by sqs c s && existsb (Nat.eqb sq) (attacks sqs s))
          all_squares.

(** [Board.king] *)
Definition king (sqs : list (option Piece)) (c : Color) : option nat :=
  find (fun s => has sqs s King c) all_squares.

Definition in_check (sqs : list (option Piece)) (c : Color) : bool :=
  match king sqs c with
  | Some k => is_attacked_by sqs (opposite c) k
  | None => false
  end.

(** [Board.clean_castling_rights]: a right counts while its rook stands in
    its corner and the king on its own square. *)
Definition clean_castling_rights (p : Pos) : list nat :=
  filter
    (fun r =>
       ((Nat.eqb r A1 || Nat.eqb r H1)
        && has (squares p) r Rook White && has (squares p) E1 King White)
       || ((Nat.eqb r A8 || Nat.eqb r H8)
           && has (squares p) r Rook Black && has (squares p) E8 King Black))
    (castling_rights p).

(** [Board._to_chess960]: castling as the king taking its own rook. *)
Definition to_chess960 (p : Pos) (m : Move) : Move :=
  let kings sq := has (squares p) sq King White || has (squares p) sq King Black in
  let rooks sq := has (squares p) sq Rook White || has (squares p) sq Rook Black in
  let f := from_square m in
  let t := to_square m in
  if (f =? E1) && kings E1 then
    if (t =? G1) && negb (rooks G1) then mkMove E1 H1 None
    else if (t =? C1) && negb (rooks C1) then mkMove E1 A1 None
    else m
  else if (f =? E8) && kings E8 then
    if (t =? G8) && negb (rooks G8) then mkMove E8 H8 None
    else if (t =? C8) && negb (rooks C8) then mkMove E8 A8 None
    else m
  else m.

(** [Board._from_chess960] for standard chess. *)
Definition from_chess960 (p : Pos) (m : Move) : Move :=
  let kings sq := has (squares p) sq King White || has (squares p) sq King Black in
  let f := from_square m in
  let t := to_square m in
  match promotion m with
  | Some _ => m
  | None =>
      if (f =? E1) && kings E1 then
        if t =? H1 then mkMove E1 G1 None
        else if t =? A1 then mkMove E1 C1 None
        else m
      else if (f =? E8) && kings E8 then
        if t =? H8 then mkMove E8 G8 None
        else if t =? A8 then mkMove E8 C8 None
        else m
      else m
  end.

Definition is_pawn_at (sqs : list (option Piece)) (sq : nat) : bool :=
  has sqs sq Pawn White || has sqs sq Pawn Black.

(** [Board.is_zeroing]: a pawn move or a capture. *)
Definition is_zeroing (p : Pos) (m : Move) : bool :=
  let f := from_square m in
  let t := to_square m in
  negb (f =? t)
  && (is_pawn_at (squares p) f || is_pawn_at (squares p) t
      || occupied_by (squares p) (opposite (to_move p)) f
      || occupied_by (squares p) (opposite (to_move p)) t).

Definition remove_all (xs : list nat) (l : list nat) : list nat :=
  filter (fun r => negb (existsb (Nat.eqb r) xs)) l.

Definition on_rank (rk : nat) (l : list nat) : list nat :=
  filter (fun r => square_rank r =? rk) l.

Definition off_rank (rk : nat) (l : list nat) : list nat :=
  filter (fun r => negb (square_rank r =? rk)) l.

Definition backrank (c : Color) : nat := match c with White => 0 | Black => 7 end.

(** What [Board.push] does to the position.  It expects a pseudo-legal
    move: with no piece on the origin square python-chess fails an
    assertion, and the position returned here is the one it has reached
    by then. *)
Definition apply_move (p : Pos) (mv : Move) : Pos :=
  let m := to_chess960 p mv in
  let us := to_move p in
  let rights := clean_castling_rights p in
  let half := S (halfmove_clock p) in
  let full :=
    match us with
    | Black => S (fullmove_number p)
    | White => fullmove_number p
    end in
  if is_null m then mkPos (squares p) (opposite us) rights None half full
  else
    let half := if is_zeroing p m then 0 else half in
    let f := from_square m in
    let t := to_square m in
    match piece_at (squares p) f with
    | None => mkPos (squares p) us rights None half full
    | Some moving =>
        let sqs := set_at (squares p) f None in
        let captured := piece_at sqs t in
        let rights := remove_all [f; t] rights in
        let rights :=
          match piece_type moving, captured with
          | King, _ => off_rank (backrank us) rights
          | _, Some (mkPiece King _) =>
              if color_eqb us White && (square_rank t =? 7) then off_rank 7 rights
              else if color_eqb us Black && (square_rank t =? 0) then off_rank 0 rights
              else rights
          | _, _ => rights
          end in
        let diff := (Z.of_nat t - Z.of_nat f)%Z in
        let '(ep, sqs) :=
          match piece_type moving with
          | Pawn =>
              if (diff =? 16)%Z && (square_rank f =? 1) then (Some (f + 8), sqs)
              else if (diff =? -16)%Z && (square_rank f =? 6) then (Some (f - 8), sqs)
              else
                match ep_square p, captured with
                | Some e, None =>
                    if (t =? e) && ((Z.abs diff =? 7) || (Z.abs diff =? 9))%Z then
                      (None,
                       set_at sqs (match us with White => e - 8 | Black => e + 8 end)
                              None)
                    else (None, sqs)
                | _, _ => (None, sqs)
                end
          | _ => (None, sqs)
          end in
        let placed :=
          match promotion m with
          | Some promoted => promoted
          | None => piece_type moving
          end in
        let castling := piece_type_eqb placed King && occupied_by sqs us t in
        let sqs :=
          if castling then
            let a_side := square_file t <? square_file f in
            let sqs := set_at (set_at sqs f None) t None in
            let rk := backrank us in
            if a_side then
              set_at (set_at sqs (square 2 rk) (Some (mkPiece King us)))
                     (square 3 rk) (Some (mkPiece Rook us))
            else
              set_at (set_at sqs (square 6 rk) (Some (mkPiece King us)))
                     (square 5 rk) (Some (mkPiece Rook us))
          else set_at sqs t (Some (mkPiece placed us)) in
        mkPos sqs (opposite us) rights ep half full
    end.

(** A pawn move to [t], in its four promotions on a back rank. *)
Definition pawn_moves_to (f t : nat) : list Move :=
  if (square_rank t =? 0) || (square_rank t =? 7)
  then map (fun pt => mkMove f t (Some pt)) [Queen; Rook; Bishop; Knight]
  else [mkMove f t None].

(** [Board.generate_pseudo_legal_moves], castling apart. *)
Definition pseudo_legal_from (p : Pos) (sq : nat) : list Move :=
  let sqs := squares p in
  let us := to_move p in
  match piece_at sqs sq with
  | None => []
  | Some (mkPiece t c) =>
      if negb (color_eqb c us) then []
      else
        match t with
        | Pawn =>
            let captures :=
              flat_map (fun s => if occupied_by sqs (opposite us) s
                                 then pawn_moves_to sq s else [])
                       (attacks sqs sq) in
            let pushes :=
              match shift sq (0%Z, forward us) with
              | Some s1 =>
                  if vacant sqs s1 then
                    pawn_moves_to sq s1 ++
                    match shift s1 (0%Z, forward us) with
                    | Some s2 =>
                        let r := square_rank s2 in
                        if vacant sqs s2
                           && (match us with
                               | White => (r =? 2) || (r =? 3)
                               | Black => (r =? 5) || (r =? 4)
                               end)
                        then [mkMove sq s2 None] else []
                    | None => []
                    end
                  else []
              | None => []
              end in
            let en_passant :=
              match ep_square p with
              | Some (S _ as e) =>
                  if vacant sqs e
                     && existsb (Nat.eqb e) (attacks sqs sq)
                     && (square_rank sq =? match us with White => 4 | Black => 3 end)
                  then [mkMove sq e None] else []
              | _ => []
              end in
            captures ++ pushes ++ en_passant
        | _ =>
            map (fun s => mkMove sq s None)
                (filter (fun s => negb (occupied_by sqs us s)) (attacks sqs sq))
        end
  end.

(** [Board.is_into_check], by playing the move. *)
Definition is_into_check (p : Pos) (m : Move) : bool :=
  in_check (squares (apply_move p m)) (to_move p).

Definition between (a b : nat) : list nat :=
  seq (S (Nat.min a b)) (Nat.max a b - Nat.min a b - 1).

(** [Board.generate_castling_moves], king-side first. *)
Definition generate_castling_moves (p : Pos) : list Move :=
  let sqs := squares p in
  let us := to_move p in
  let rk := backrank us in
  let k := square 4 rk in
  flat_map
    (fun rook =>
       let a_side := rook <? k in
       let king_to := square (if a_side then 2 else 6) rk in
       let rook_to := square (if a_side then 3 else 5) rk in
       let king_path := between k king_to in
       let rook_path := between rook rook_to in
       let must_be_empty :=
         remove_all [k; rook] (king_path ++ rook_path ++ [king_to; rook_to]) in
       if forallb (vacant sqs) must_be_empty
          && negb (existsb (is_attacked_by sqs (opposite us))
                           (king_path ++ [k; king_to]))
       then [mkMove k king_to None] else [])
    (rev (on_rank rk (clean_castling_rights p))).

(** The legal moves that are not castling. *)
Definition generate_plain_moves (p : Pos) : list Move :=
  filter (fun m => negb (is_into_check p m))
         (flat_map (pseudo_legal_from p) all_squares).

(** [Board.generate_legal_moves], as a set: python-chess yields the same
    moves in another order. *)
Definition generate_legal_moves (p : Pos) : list Move :=
  generate_plain_moves p ++ generate_castling_moves p.

(** [Board.is_legal] *)
Definition is_legal (p : Pos) (m : Move) : bool :=
  negb (is_null m)
  && existsb (move_eqb (from_chess960 p m)) (generate_legal_moves p).

(** *** Standard algebraic notation

    [SAN_REGEX] of python-chess:
    [^([NBKRQ])?([a-h])?([1-8])?[\-x]?([a-h][1-8])(=?[nbrqkNBRQK])?[\+#]?\Z] *)
Record SanShape := mkShape {
  san_piece : option PieceType;
  san_file : option nat;
  san_rank : option nat;
  san_to : nat;
  san_promotion : option PieceType
}.

Definition between_codes (lo hi : nat) (c : ascii) : option nat :=
  let n := nat_of_ascii c in
  if (lo <=? n) && (n <=? hi) then Some (n - lo) else None.

Definition file_of_char : ascii -> option nat := between_codes 97 104.
Definition rank_of_char : ascii -> option nat := between_codes 49 56.

Definition piece_of_letter (c : ascii) : option PieceType :=
  match c with
  | "N"%char => Some Knight
  | "B"%char => Some Bishop
  | "K"%char => Some King
  | "R"%char => Some Rook
  | "Q"%char => Some Queen
  | _ => None
  end.

Definition promotion_of_letter (c : ascii) : option PieceType :=
  match c with
  | "n"%char | "N"%char => Some Knight
  | "b"%char | "B"%char => Some Bishop
  | "r"%char | "R"%char => Some Rook
  | "q"%char | "Q"%char => Some Queen
  | "k"%char | "K"%char => Some King
  | _ => None
  end.

Definition separator (c : ascii) : option unit :=
  match c with
  | "-"%char | "x"%char => Some tt
  | _ => None
  end.

Definition check_mark (c : ascii) : option unit :=
  match c with
  | "+"%char | "#"%char => Some tt
  | _ => None
  end.

(** The ways to match [X?]: with the character first, then without. *)
Definition optional {A} (f : ascii -> option A) (cs : list ascii)
  : list (option A * list ascii) :=
  match cs with
  | c :: r =>
      match f c with
      | Some a => [(Some a, r); (None, cs)]
      | None => [(None, cs)]
      end
  | [] => [(None, [])]
  end.

(** The ways to match [(=?[nbrqkNBRQK])?]. *)
Definition optional_promotion (cs : list ascii)
  : list (option PieceType * list ascii) :=
  let letter cs :=
    match cs with
    | c :: r =>
        match promotion_of_letter c with
        | Some t => [(Some t, r)]
        | None => []
        end
    | [] => []
    end in
  match cs with
  | "="%char :: r => letter r ++ [(None, cs)]
  | _ => letter cs ++ [(None, cs)]
  end.

(** Every way the expression matches the whole text, the one the regex
    engine finds first at the head. *)
Definition san_shapes (cs : list ascii) : list SanShape :=
  flat_map (fun '(pc, cs) =>
  flat_map (fun '(fl, cs) =>
  flat_map (fun '(rk, cs) =>
  flat_map (fun '(_, cs) =>
    match cs with
    | a :: b :: cs =>
        match file_of_char a, rank_of_char b with
        | Some tf, Some tr =>
            flat_map (fun '(pr, cs) =>
            flat_map (fun '(_, cs) =>
              match cs with
              | [] => [mkShape pc fl rk (square tf tr) pr]
              | _ :: _ => []
              end)
            (optional check_mark cs))
            (optional_promotion cs)
        | _, _ => []
        end
    | _ => []
    end)
  (optional separator cs))
  (optional rank_of_char cs))
  (optional file_of_char cs))
  (optional piece_of_letter cs).

(** [Board.find_move], then the test on the promotion that follows it in
    [parse_san]. *)
Definition find_move (p : Pos) (f t : nat) (promo : option PieceType) : SanResult :=
  let wanted :=
    match promo with
    | None =>
        if is_pawn_at (squares p) f && ((square_rank t =? 0) || (square_rank t =? 7))
        then Some Queen else None
    | Some _ => promo
    end in
  let m := from_chess960 p (mkMove f t wanted) in
  if is_legal p m then
    if option_eqb piece_type_eqb (promotion m) promo then SanMove m
    else SanRaises IllegalMoveError
  else SanRaises IllegalMoveError.

Definition matches (x : option nat) (v : nat) : bool :=
  match x with
  | Some n => n =? v
  | None => true
  end.

(** [Board.parse_san] *)
Definition parse_san (p : Pos) (san : string) : SanResult :=
  let sqs := squares p in
  let us := to_move p in
  let castle (kingside : bool) :=
    match filter (fun m => Bool.eqb kingside
                             (square_file (from_square m) <? square_file (to_square m)))
                 (generate_castling_moves p) with
    | m :: _ => SanMove m
    | [] => SanRaises IllegalMoveError
    end in
  if existsb (String.eqb san) ["O-O"; "O-O+"; "O-O#"; "0-0"; "0-0+"; "0-0#"]
  then castle true
  else if existsb (String.eqb san)
                  ["O-O-O"; "O-O-O+"; "O-O-O#"; "0-0-0"; "0-0-0+"; "0-0-0#"]
  then castle false
  else
    match san_shapes (list_ascii_of_string san) with
    | [] =>
        if existsb (String.eqb san) ["--"; "Z0"; "0000"; "@@@@"]
        then SanMove null_move
        else SanRaises InvalidMoveError
    | shape :: _ =>
        let t := san_to shape in
        let promo := san_promotion shape in
        let matched (from_ok : nat -> bool) :=
          match filter (fun m => from_ok (from_square m) && (to_square m =? t)
                                 && option_eqb piece_type_eqb (promotion m) promo)
                       (generate_plain_moves p) with
          | [] => SanRaises IllegalMoveError
          | [m] => SanMove m
          | _ :: _ :: _ => SanRaises AmbiguousMoveError
          end in
        match san_piece shape, san_file shape, san_rank shape with
        | Some pt, fl, rk =>
            matched (fun f => has sqs f pt us
                              && matches fl (square_file f)
                              && matches rk (square_rank f))
        | None, Some fl, Some rk => find_move p (square fl rk) t promo
        | None, fl, rk =>
            matched (fun f => has sqs f Pawn us
                              && matches fl (square_file f)
                              && matches rk (square_rank f)
                              && match fl with
                                 | Some _ => true
                                 | None => square_file f =? square_file t
                                 end)
        end
    end.

(** *** The end of the game *)

Definition any_legal_move (p : Pos) : bool :=
  match generate_legal_moves p with
  | [] => false
  | _ :: _ => true
  end.

Definition is_check (p : Pos) : bool := in_check (squares p) (to_move p).

Definition is_checkmate (p : Pos) : bool := is_check p && negb (any_legal_move p).

Definition is_stalemate (p : Pos) : bool :=
  negb (is_check p) && negb (any_legal_move p).

Definition count_if (f : nat -> bool) : nat := List.length (filter f all_squares).

Definition dark (sq : nat) : bool := Nat.even (square_file sq + square_rank sq).

(** [Board.has_insufficient_material] *)
Definition has_insufficient_material (p : Pos) (c : Color) : bool :=
  let sqs := squares p in
  let any f := existsb f all_squares in
  let bishop s := has sqs s Bishop White || has sqs s Bishop Black in
  let knight s := has sqs s Knight White || has sqs s Knight Black in
  if any (fun s => has sqs s Pawn c || has sqs s Rook c || has sqs s Queen c)
  then false
  else if any (fun s => has sqs s Knight c) then
    (count_if (occupied_by sqs c) <=? 2)
    && negb (any (fun s => occupied_by sqs (opposite c) s
                           && negb (has sqs s King (opposite c))
                           && negb (has sqs s Queen (opposite c))))
  else if any (fun s => has sqs s Bishop c) then
    (negb (any (fun s => bishop s && dark s))
     || negb (any (fun s => bishop s && negb (dark s))))
    && negb (any (is_pawn_at sqs)) && negb (any knight)
  else true.

Definition is_insufficient_material (p : Pos) : bool :=
  has_insufficient_material p White && has_insufficient_material p Black.

(** [Board._is_halfmoves] *)
Definition is_halfmoves (n : nat) (p : Pos) : bool :=
  (n <=? halfmove_clock p) && any_legal_move p.

Definition is_fifty_moves : Pos -> bool := is_halfmoves 100.
Definition is_seventyfive_moves : Pos -> bool := is_halfmoves 150.

(** [Board.has_legal_en_passant] *)
Definition has_legal_en_passant (p : Pos) : bool :=
  match ep_square p with
  | Some e =>
      existsb (fun m => (to_square m =? e)
                        && is_pawn_at (squares p) (from_square m)
                        && negb (square_file (from_square m) =? square_file e))
              (generate_plain_moves p)
  | None => false
  end.

(** [Board._transposition_key], compared with [==]. *)
Definition same_transposition (p q : Pos) : bool :=
  list_eqb (option_eqb piece_eqb) (squares p) (squares q)
  && color_eqb (to_move p) (to_move q)
  && list_eqb Nat.eqb (clean_castling_rights p) (clean_castling_rights q)
  && option_eqb Nat.eqb
       (if has_legal_en_passant p then ep_square p else None)
       (if has_legal_en_passant q then ep_square q else None).

(** [Board._reduces_castling_rights] *)
Definition reduces_castling_rights (p : Pos) (m : Move) : bool :=
  let cr := clean_castling_rights p in
  let f := from_square m in
  let t := to_square m in
  let touched sq := negb (f =? t) && ((sq =? f) || (sq =? t)) in
  let king_touched c :=
    touched f && has (squares p) f King c || touched t && has (squares p) t King c in
  existsb touched cr
  || (match on_rank 0 cr with [] => false | _ => king_touched White end)
  || (match on_rank 7 cr with [] => false | _ => king_touched Black end).

(** [Board.is_irreversible] *)
Definition is_irreversible (p : Pos) (m : Move) : bool :=
  is_zeroing p m || reduces_castling_rights p m || has_legal_en_passant p.

(** The replay loop of [Board.is_repetition]: [entries] is the stack, the
    latest move first.  (The occupancy test that python-chess runs before
    it only skips replays that cannot succeed.) *)
Fixpoint replay (now : Pos) (entries : list (Pos * Move)) (count : nat) : bool :=
  if count <=? 1 then true
  else
    match entries with
    | [] => false
    | (p, m) :: rest =>
        if List.length entries <? count - 1 then false
        else if is_irreversible p m then false
        else replay now rest (if same_transposition p now then count - 1 else count)
    end.

Definition is_repetition_n (count : nat) (b : BoardOf Pos) : bool :=
  replay (position b) (rev (stack b)) count.

(** [Board.is_game_over()], that is [outcome() is not None] without a
    claimed draw. *)
Definition is_game_over (b : BoardOf Pos) : bool :=
  let p := position b in
  is_checkmate p || is_insufficient_material p || negb (any_legal_move p)
  || is_seventyfive_moves p || is_repetition_n 5 b.

Definition white_pieces : list PieceType :=
  [Rook; Knight; Bishop; Queen; King; Bishop; Knight; Rook].

(** [chess.Board()]: the starting position. *)
Definition starting_position : Pos :=
  mkPos
    (map (fun t => Some (mkPiece t White)) white_pieces
     ++ repeat (Some (mkPiece Pawn White)) 8
     ++ repeat None 32
     ++ repeat (Some (mkPiece Pawn Black)) 8
     ++ map (fun t => Some (mkPiece t Black)) white_pieces)
    White [A1; H1; A8; H8] None 0 1.

#[export] Instance rules : RulesOracle Pos := {
  starting_position := starting_position;
  turn := to_move;
  parse_san := parse_san;
  generate_legal_moves := generate_legal_moves;
  is_legal := is_legal;
  apply_move := apply_move;
  is_checkmate := is_checkmate;
  is_stalemate := is_stalemate;
  is_insufficient_material := is_insufficient_material;
  is_fifty_moves := is_fifty_moves;
  is_repetition := is_repetition_n 3;
  is_game_over := is_game_over
}.

End PyChess.


(** ** Fixtures: machines and engines for the scenarios *)
Module Fixtures.
Import PyChess.

(** A Linux machine with no Stockfish anywhere. *)
Definition bare_host : Host Pos := mkHost "Linux" None (fun _ => None).

Definition e7e5 : Move := mkMove 52 36 None.

(** An engine that accepts any skill level and answers every position
    with e7e5. *)
Definition e5_engine : Engine Pos := mkEngine (fun _ => true) (fun _ => BestMove (Some e7e5)).

(** An engine whose process has died. *)
Definition dead_engine : Engine Pos :=
  mkEngine (fun _ => true) (fun _ => EngineFailure "engine process died").

(** A Linux machine where only /usr/bin/stockfish starts. *)
Definition host_with (e : Engine Pos) : Host Pos :=
  mkHost "Linux" None
         (fun path => if path == "/usr/bin/stockfish" then Some e else None).

(** [ChessGame()] and [ChessGame("pvc")] on these machines. *)
Definition pvp_game : Game Pos := fst (init bare_host "pvp" 2%Z).
Definition pvc_game : Game Pos := fst (init (host_with e5_engine) "pvc" 2%Z).

(** A [pvc] session whose engine started and then died. *)
Definition stalled_game : Game Pos := fst (init (host_with dead_engine) "pvc" 2%Z).

(** The game that [make_move] reaches on these texts, the game itself
    when one of them is rejected. *)
Definition after (g : Game Pos) (texts : list string) : Game Pos :=
  match make_moves g texts with
  | Some g' => g'
  | None => g
  end.

(** 1. f3 e5 2. g4 Qh4#. *)
Definition mated_game : Game Pos := after pvp_game ["f3"; "e5"; "g4"; "Qh4#"].

End Fixtures.

(** ** The probe, seen from outside *)
Section Probing.

Variable Position : Type.

(** The engines that [popen_uci] starts on these paths, in order. *)
Definition launched (h : Host Position) (paths : list string)
  : list (Engine Position) :=
  flat_map (fun path => match popen_uci h path with
                        | Some e => [e]
                        | None => []
                        end) paths.

(** A path on which the body of the [try] of [setup_stockfish] reaches its
    [return]: the engine starts and accepts the skill level. *)
Definition usable (h : Host Position) (d : Z) (path : string) : bool :=
  match popen_uci h path with
  | Some e => accepts_skill_level e d
  | None => false
  end.

End Probing.

(** ** Drawing the board: [ChessPieces], [ChessColors] and [ChessUI]

    [render_board] reads the pieces off a [chess.Board], so it is modelled
    on the boards of [PyChess].  A [rich] [Text] is the list of its pieces
    of text, each with its style; the texts are UTF-8. *)
Module Render.
Import PyChess.

Module ChessPieces.
Definition UNICODE : list (string * string) :=
  [("P", "♙"); ("N", "♘"); ("B", "♗"); ("R", "♖"); ("Q", "♕"); ("K", "♔");
   ("p", "♟"); ("n", "♞"); ("b", "♝"); ("r", "♜"); ("q", "♛"); ("k", "♚")].
Definition LETTERS : list (string * string) :=
  [("P", "P"); ("N", "N"); ("B", "B"); ("R", "R"); ("Q", "Q"); ("K", "K");
   ("p", "p"); ("n", "n"); ("b", "b"); ("r", "r"); ("q", "q"); ("k", "k")].
End ChessPieces.

Module ChessColors.
Definition LIGHT_SQUARE := "on bright_white".
Definition DARK_SQUARE := "on bright_black".
Definition WHITE_PIECE := "bold white".
Definition BLACK_PIECE := "bold black".
Definition HIGHLIGHT := "on green".
Definition LAST_MOVE := "on yellow".
End ChessColors.

(** [d[k]] on a dict, [None] for [KeyError]. *)
Fixpoint dict_get (d : list (string * string)) (k : string) : option string :=
  match d with
  | [] => None
  | (k', v) :: rest => if k' == k then Some v else dict_get rest k
  end.

(** [Piece.symbol()] of python-chess: the letter of the piece, a capital
    for White. *)
Definition symbol (p : Piece) : string :=
  match piece_type p, color p with
  | Pawn, White => "P"
  | Knight, White => "N"
  | Bishop, White => "B"
  | Rook, White => "R"
  | Queen, White => "Q"
  | King, White => "K"
  | Pawn, Black => "p"
  | Knight, Black => "n"
  | Bishop, Black => "b"
  | Rook, Black => "r"
  | Queen, Black => "q"
  | King, Black => "k"
  end.

(** [rich.text.Text]: the pieces of text with their styles. *)
Definition Text : Type := list (string * string).

(** [Text(s, style=st)]; [Text(s)] has the empty style. *)
Definition text (s st : string) : Text := [(s, st)].

(** [sep.join(texts)] *)
Fixpoint join (sep : Text) (texts : list Text) : Text :=
  match texts with
  | [] => []
  | [t] => t
  | t :: rest => t ++ sep ++ join sep rest
  end.

(** [sep.join(strings)] on [str]. *)
Fixpoint str_join (sep : string) (l : list string) : string :=
  match l with
  | [] => EmptyString
  | [x] => x
  | x :: rest => String.append x (String.append sep (str_join sep rest))
  end.

(** [str(n)] *)
Definition str (n : nat) : string := NilEmpty.string_of_uint (Nat.to_uint n).

(** A list of results, unless one of them is an exception. *)
Fixpoint all_some {A} (l : list (option A)) : option (list A) :=
  match l with
  | [] => Some []
  | None :: _ => None
  | Some x :: rest =>
      match all_some rest with
      | Some xs => Some (x :: xs)
      | None => None
      end
  end.

(** [rich.panel.Panel] *)
Record Panel := mkPanel {
  renderable : Text;
  title : string;
  border_style : string
}.

(** Lines 65-90: the text of one square; [None] when the dict of glyphs has
    no entry for the symbol of the piece ([KeyError]).  [last_move and ...]
    is false for [None] and for the null move, [legal_moves and ...] for
    [None] and for the empty list. *)
Definition render_square (b : BoardOf Pos) (last_move : option Move)
           (legal_moves : option (list Move)) (pieces : list (string * string))
           (file rank : nat) : option Text :=
  let sq := square file rank in
  let piece := piece_at (squares (position b)) sq in
  let square_color :=
    if (file + rank) mod 2 =? 0 then ChessColors.LIGHT_SQUARE
    else ChessColors.DARK_SQUARE in
  let is_last_move :=
    match last_move with
    | Some m => negb (is_null m) && ((sq =? from_square m) || (sq =? to_square m))
    | None => false
    end in
  let is_legal_move :=
    match legal_moves with
    | Some (_ :: _ as moves) => existsb (Nat.eqb sq) (map to_square moves)
    | _ => false
    end in
  let square_color :=
    if is_last_move then
      String.append square_color (String.append " " ChessColors.LAST_MOVE)
    else if is_legal_move then
      String.append square_color (String.append " " ChessColors.HIGHLIGHT)
    else square_color in
  match piece with
  | Some pc =>
      let piece_style :=
        match color pc with
        | White => ChessColors.WHITE_PIECE
        | Black => ChessColors.BLACK_PIECE
        end in
      match dict_get pieces (symbol pc) with
      | Some piece_symbol =>
          Some (text piece_symbol
                     (String.append piece_style (String.append " " square_color)))
      | None => None
      end
  | None => Some (text "." square_color)
  end.

(** Lines 61-94: the line of one rank. *)
Definition render_rank (b : BoardOf Pos) (last_move : option Move)
           (legal_moves : option (list Move)) (pieces : list (string * string))
           (rank : nat) : option Text :=
  match all_some (map (fun file => render_square b last_move legal_moves pieces file rank)
                      (seq 0 8)) with
  | Some squares_of_rank =>
      Some (join (text " " EmptyString)
                 (text (str (rank + 1)) "bold blue" :: squares_of_rank))
  | None => None
  end.

(** Lines 55-94: the list [board_display], the header and the ranks from 8
    down to 1. *)
Definition board_display (b : BoardOf Pos) (last_move : option Move)
           (legal_moves : option (list Move)) (pieces : list (string * string))
  : option (list Text) :=
  let column_headers :=
    String.append "   "
      (str_join " " (map (fun i => String (ascii_of_nat (97 + i)) EmptyString)
                         (seq 0 8))) in
  match all_some (map (render_rank b last_move legal_moves pieces) (rev (seq 0 8))) with
  | Some ranks => Some (text column_headers "bold blue" :: ranks)
  | None => None
  end.

(** [ChessUI.render_board]: the panel it prints, [None] when it raises
    [KeyError].  Clearing the screen is not modelled. *)
Definition render_board (b : BoardOf Pos) (last_move : option Move)
           (legal_moves : option (list Move)) (piece_mode : string)
  : option Panel :=
  let pieces :=
    if piece_mode == "unicode" then ChessPieces.UNICODE else ChessPieces.LETTERS in
  match board_display b last_move legal_moves pieces with
  | Some lines =>
      Some (mkPanel (join (text (String (ascii_of_nat 10) EmptyString) EmptyString) lines)
                    "Chess Board" "blue")
  | None => None
  end.

(** *** Reading a drawing *)

(** The piece of text at [file] and [rank] in the lines of a drawing: line
    0 is the header and line [8 - rank] the rank, where the squares stand at
    the even places after the label. *)
Definition shown_at (lines : list Text) (file rank : nat) : string * string :=
  nth (2 * (file + 1)) (nth (8 - rank) lines []) (EmptyString, EmptyString).

(** The pieces a glyph can stand for: the keys of the dict that have it as
    their value. *)
Definition pieces_shown_as (pieces : list (string * string)) (glyph : string)
  : list string :=
  map fst (filter (fun kv => snd kv == glyph) pieces).

(** The glyphs of [piece_mode]: the choice of line 49. *)
Definition pieces_of_mode (piece_mode : string) : list (string * string) :=
  if piece_mode == "unicode" then ChessPieces.UNICODE else ChessPieces.LETTERS.

(** The lines of a drawing whose squares show [cell file rank]. *)
Definition lines_of (cell : nat -> nat -> string * string) : list Text :=
  text "   a b c d e f g h" "bold blue"
  :: map (fun rank =>
            join (text " " EmptyString)
                 (text (str (rank + 1)) "bold blue"
                  :: map (fun file => [cell file rank]) (seq 0 8)))
         (rev (seq 0 8)).

End Render.

(** ** More machines and games for the scenarios *)
Module MoreFixtures.
Import PyChess Fixtures.

(** An engine that starts but refuses the skill level. *)
Definition picky_engine : Engine Pos :=
  mkEngine (fun _ => false) (fun _ => BestMove (Some e7e5)).

(** The game after 1. e4. *)
Definition after_e4 : Game Pos := after pvp_game ["e4"].

(** A [pvc] session whose engine has died, after the player's 1. e4. *)
Definition stalled_after_e4 : Game Pos := after stalled_game ["e4"].

(** A Linux machine with Stockfish installed out of the way, that does not
    start. *)
Definition host_with_path : Host Pos :=
  mkHost "Linux" (Some "/opt/chess/stockfish") (fun _ => None).

(** The lines drawn for a board, none if drawing raises. *)
Definition drawn (b : BoardOf Pos) (last_move : option Move)
           (legal_moves : option (list Move)) (piece_mode : string)
  : list Render.Text :=
  match Render.board_display b last_move legal_moves
                             (Render.pieces_of_mode piece_mode) with
  | Some lines => lines
  | None => []
  end.

End MoreFixtures.

(** A text without an opening bracket: printed inside rich markup it adds
    no tag, so [console.print] prints it. *)
Fixpoint markup_free (s : string) : bool :=
  match s with
  | EmptyString => true
  | String c r => negb (Ascii.eqb c "["%char) && markup_free r
  end.

(** ** Facts about the string methods *)
Module PyStrFacts.
Import PyStr.

Lemma isspace_lower_char (c : ascii) : isspace (lower_char c) = isspace c.
Proof. destruct c as [[] [] [] [] [] [] [] []]; reflexivity. Qed.

Lemma rstrip_lower (s : string) : rstrip (lower s) = lower (rstrip s).
Proof.
  induction s as [|c r IH]; [reflexivity|].
  simpl. rewrite IH, isspace_lower_char.
  destruct (rstrip r); [destruct (isspace c)|]; reflexivity.
Qed.

Lemma rstrip_idempotent (s : string) : rstrip (rstrip s) = rstrip s.
Proof.
  induction s as [|c r IH]; [reflexivity|].
  simpl. destruct (rstrip r) as [|a t] eqn:E.
  - destruct (isspace c) eqn:S; [reflexivity|]. simpl. now rewrite S.
  - change (rstrip (String c (String a t)))
      with (match rstrip (String a t) with
            | EmptyString => if isspace c then EmptyString else String c EmptyString
            | r' => String c r'
            end).
    now rewrite IH.
Qed.

(** A command text has no white space at its end. *)
Lemma rstrip_command_text (line : string) :
  rstrip (lower (strip line)) = lower (strip line).
Proof. unfold strip. now rewrite rstrip_lower, rstrip_idempotent. Qed.

Lemma rstrip_tail (c : ascii) (r : string) :
  rstrip (String c r) = String c r -> r <> EmptyString -> rstrip r = r.
Proof.
  simpl. destruct (rstrip r) as [|a t].
  - destruct (isspace c); intros H; [discriminate|].
    injection H as <-. now intros [].
  - intros H _. now injection H.
Qed.

Lemma rstrip_last (c : ascii) :
  rstrip (String c EmptyString) = String c EmptyString -> isspace c = false.
Proof. simpl. now destruct (isspace c). Qed.

Lemma split_aux_flush (rest : list string) (cur : list ascii) :
  rest <> [] ->
  match cur with
  | [] => rest
  | _ => string_of_list_ascii (rev cur) :: rest
  end <> [].
Proof. destruct cur; [trivial|discriminate]. Qed.

(** A text that is not empty and does not end in white space has a
    word. *)
Lemma split_aux_nonempty (s : string) :
  rstrip s = s -> s <> EmptyString -> forall cur, split_aux s cur <> [].
Proof.
  induction s as [|c r IH]; [now intros _ []|].
  intros H _ cur. destruct r as [|a t].
  - apply rstrip_last in H. simpl. rewrite H. discriminate.
  - assert (Hr : rstrip (String a t) = String a t)
      by (apply (rstrip_tail H); discriminate).
    change (split_aux (String c (String a t)) cur)
      with (if isspace c
            then match cur with
                 | [] => split_aux (String a t) []
                 | _ => string_of_list_ascii (rev cur) :: split_aux (String a t) []
                 end
            else split_aux (String a t) (c :: cur)).
    destruct (isspace c).
    + apply split_aux_flush. apply IH; [assumption|discriminate].
    + apply IH; [assumption|discriminate].
Qed.

Lemma prefix_app (p s : string) :
  String.prefix p s = true -> exists rest, s = String.append p rest.
Proof.
  revert s. induction p as [|a p IH]; intros s H.
  - now exists s.
  - destruct s as [|b s]; [discriminate|]. simpl in H.
    destruct (ascii_dec a b) as [<-|]; [|discriminate].
    destruct (IH s H) as [rest ->]. now exists rest.
Qed.

(** After [pieces ] a command text always has a second word: the
    subscript [[1]] of line 247 cannot raise. *)
Lemma pieces_has_mode (line : string) :
  startswith (lower (strip line)) "pieces " = true ->
  exists mode, nth_error (split (lower (strip line))) 1 = Some mode.
Proof.
  intros H. pose proof (rstrip_command_text line) as R.
  destruct (prefix_app _ _ H) as [rest E]. rewrite E in *. clear E H.
  change (String.append "pieces " rest)
    with (String "p" (String "i" (String "e" (String "c" (String "e"
           (String "s" (String " " rest))))))) in *.
  do 6 (apply rstrip_tail in R; [|discriminate]).
  destruct rest as [|a t]; [discriminate|].
  apply rstrip_tail in R; [|discriminate].
  pose proof (@split_aux_nonempty (String a t) R ltac:(discriminate) []) as N.
  unfold split.
  change (split_aux (String "p" (String "i" (String "e" (String "c" (String "e"
           (String "s" (String " " (String a t)))))))) [])
    with ("pieces" :: split_aux (String a t) []).
  destruct (split_aux (String a t) []) as [|mode l]; [now destruct N|].
  now exists mode.
Qed.
End PyStrFacts.

(** ** Properties of the session, for every rules oracle *)
Section SessionProperties.

Variable Position : Type.
Context {oracle : RulesOracle Position}.

Local Abbreviation Board := (Board Position).
Local Abbreviation Game := (Game Position).
Local Abbreviation Host := (Host Position).
Local Abbreviation Engine := (Engine Position).
Local Abbreviation Output := (Output Position).

(** *** The stacks *)

Lemma py_pop_app {A} (l : list A) (x : A) : py_pop (l ++ [x]) = Some (x, l).
Proof.
  unfold py_pop. rewrite rev_app_distr. simpl. now rewrite rev_involutive.
Qed.

Lemma py_pop_nil {A} (l : list A) : py_pop l = None -> l = [].
Proof.
  unfold py_pop. destruct (rev l) eqn:E; [|discriminate].
  intros _. apply (f_equal (@rev A)) in E. now rewrite rev_involutive in E.
Qed.

(** [pop] undoes [push], bit for bit. *)
Lemma pop_push (b : Board) (m : Move) : pop (push b m) = Some (m, b).
Proof.
  destruct b as [p st]. unfold pop, push. simpl. now rewrite py_pop_app.
Qed.

Lemma move_stack_push (b : Board) (m : Move) :
  move_stack (push b m) = move_stack b ++ [m].
Proof. unfold move_stack, push. simpl. now rewrite map_app. Qed.

Lemma move_stack_pop (b b' : Board) (m : Move) :
  pop b = Some (m, b') -> move_stack b = move_stack b' ++ [m].
Proof.
  unfold pop. destruct (py_pop (stack b)) as [[[p m'] rest]|] eqn:E; [|discriminate].
  intros H. injection H as -> <-. unfold move_stack. simpl.
  unfold py_pop in E. destruct (rev (stack b)) as [|x r] eqn:R; [discriminate|].
  injection E as -> <-.
  apply (f_equal (@rev _)) in R. rewrite rev_involutive in R. simpl in R.
  rewrite R, map_app. reflexivity.
Qed.

(** *** [make_move] *)

(** The three ways a call of [make_move] can go. *)
Lemma make_move_cases (g : Game) (text : string) :
  (exists m,
      parse_san (position (board g)) text = SanMove m
      /\ is_legal (position (board g)) m = true
      /\ make_move g text
         = (true,
            set_board (set_move_history g (move_history g ++ [m])) (push (board g) m),
            []))
  \/ (exists m,
         parse_san (position (board g)) text = SanMove m
         /\ is_legal (position (board g)) m = false
         /\ make_move g text = (false, g, [Print Msg.illegal_move]))
  \/ (exists e,
         parse_san (position (board g)) text = SanRaises e
         /\ make_move g text = (false, g, [Print Msg.invalid_notation])).
Proof.
  unfold make_move.
  destruct (parse_san (position (board g)) text) as [m|e].
  - destruct (is_legal (position (board g)) m) eqn:L.
    + left. now exists m.
    + right. left. now exists m.
  - right. right. now exists e.
Qed.

Lemma undo_after_make (g g' : Game) (text : string) (out : list Output) :
  make_move g text = (true, g', out) ->
  undo_move g' = inl (g, [Print Msg.last_move_undone]).
Proof.
  intros H.
  destruct (make_move_cases g text) as [(m & _ & _ & E)|[(m & _ & _ & E)|(e & _ & E)]];
    rewrite E in H; try discriminate.
  injection H as <- _. unfold undo_move. simpl.
  destruct (move_history g ++ [m]) eqn:N.
  - now destruct (move_history g).
  - rewrite <- N, pop_push, removelast_last. destruct g. reflexivity.
Qed.

Lemma undo_times_snoc (n : nat) (g g1 g2 : Game) (out : list Output) :
  undo_times n g = Some g1 -> undo_move g1 = inl (g2, out) ->
  undo_times (S n) g = Some g2.
Proof.
  revert g. induction n as [|n IH]; intros g H1 H2.
  - injection H1 as ->. simpl. now rewrite H2.
  - simpl in H1. change (undo_times (S (S n)) g)
      with (match undo_move g with
            | inl (g', _) => undo_times (S n) g'
            | inr _ => None
            end).
    destruct (undo_move g) as [[g' o]|]; [|discriminate].
    now apply IH.
Qed.

(** Undoing as many times as moves were accepted gives back the game the
    moves started from, whatever that game was. *)
Lemma undo_all (texts : list string) (g g' : Game) :
  make_moves g texts = Some g' -> undo_times (List.length texts) g' = Some g.
Proof.
  revert g. induction texts as [|text rest IH]; intros g H.
  - simpl in H. now injection H as ->.
  - simpl in H. destruct (make_move g text) as [[[] g1] out] eqn:E; [|discriminate].
    cbn [List.length]. eapply undo_times_snoc.
    + apply IH, H.
    + eapply undo_after_make, E.
Qed.

Lemma init_fresh (h : Host) (mode : string) (d : Z) :
  board (fst (init h mode d)) = new_board
  /\ move_history (fst (init h mode d)) = [].
Proof.
  unfold init. destruct (mode == "pvc"); [|now split].
  unfold setup_stockfish.
  destruct (probe _ _ _ _) as [[] eng]; now split.
Qed.

(** C1: every sequence of texts that [make_move] accepts one after the
    other, from a newly created game, is taken back by as many calls of
    [undo_move]: none of them raises, and the game is then the initial
    one, with the initial board and an empty move history. *)
Theorem undo_restores_initial_game
  (h : Host) (mode : string) (d : Z) (texts : list string) (g' : Game) :
  make_moves (fst (init h mode d)) texts = Some g' ->
  exists g'',
    undo_times (List.length texts) g' = Some g''
    /\ g'' = fst (init h mode d)
    /\ board g'' = new_board
    /\ move_history g'' = [].
Proof.
  intros H. exists (fst (init h mode d)).
  split; [now apply undo_all|]. split; [reflexivity|]. apply init_fresh.
Qed.

(** C9: a call of [make_move] that returns [False] leaves the game as it
    was, board and move history included, on both of its failure
    paths. *)
Theorem rejected_move_changes_nothing
  (g g' : Game) (text : string) (out : list Output) :
  make_move g text = (false, g', out) ->
  g' = g /\ board g' = board g /\ move_history g' = move_history g.
Proof.
  intros H.
  destruct (make_move_cases g text) as [(m & _ & _ & E)|[(m & _ & _ & E)|(e & _ & E)]];
    rewrite E in H; try discriminate; injection H as <- _; now repeat split.
Qed.

(** The two failure paths of [make_move] print different lines.  When
    [parse_san] raises for [bad], the call prints the invalid-notation
    line; when it returns, for [wrong], a move that is not legal, the call
    prints the illegal-move line.  Both return [False] and leave the game
    as it was. *)
Lemma make_move_failure_lines
  (g : Game) (bad wrong : string) (e : SanFailure) (m : Move) :
  parse_san (position (board g)) bad = SanRaises e ->
  parse_san (position (board g)) wrong = SanMove m ->
  is_legal (position (board g)) m = false ->
  make_move g bad = (false, g, [Print Msg.invalid_notation])
  /\ make_move g wrong = (false, g, [Print Msg.illegal_move])
  /\ make_move g bad <> make_move g wrong.
Proof.
  intros Hbad Hwrong Hillegal. unfold make_move.
  rewrite Hbad, Hwrong, Hillegal. repeat split. discriminate.
Qed.

(** *** [computer_move] *)

(** C3: when [computer_move] returns [None], because the mode is not
    [pvc], because there is no engine, because the engine fails or
    because it answers without a move, the game it leaves is the game it
    was given: the board is unchanged. *)
Theorem failed_engine_move_keeps_board
  (g g' : Game) (out : list Output) :
  computer_move g = (None, g', out) ->
  g' = g /\ board g' = board g.
Proof.
  unfold computer_move. intros H.
  destruct (game_mode g == "pvc"), (engine g) as [e|];
    try (injection H as <- _; now split).
  destruct (engine_play e (board g)) as [[m|]|err];
    try discriminate; injection H as <- _; now split.
Qed.

(** *** The constructor and the Stockfish probe *)

Lemma probe_nothing_starts (h : Host) (d : Z) (paths : list string)
      (eng : option Engine) :
  (forall path, In path paths -> popen_uci h path = None) ->
  probe h d paths eng = (false, eng).
Proof.
  induction paths as [|path rest IH]; intros H; [reflexivity|].
  simpl. rewrite (H path (or_introl eq_refl)).
  apply IH. intros q Hq. apply H. now right.
Qed.

(** *** The loop *)

Lemma pieces_is_no_other_command (c : string) :
  PyStr.startswith c "pieces " = true ->
  (c == "help") = false
  /\ existsb (String.eqb c) ["quit"; "exit"] = false
  /\ (c == "undo") = false.
Proof.
  intros H. simpl.
  repeat split;
    repeat match goal with
           | |- context [c == ?k] =>
               destruct (String.eqb_spec c k) as [->|_]; [discriminate H|]
           end; reflexivity.
Qed.

Lemma switch_pieces_frame (g : Game) (mode : string) :
  board (fst (switch_pieces g mode)) = board g
  /\ move_history (fst (switch_pieces g mode)) = move_history g
  /\ game_mode (fst (switch_pieces g mode)) = game_mode g
  /\ engine (fst (switch_pieces g mode)) = engine g.
Proof.
  unfold switch_pieces. now destruct (existsb _ _).
Qed.

(** What [player_turn] does with a [pieces] command. *)
Lemma player_turn_pieces (g : Game) (loc : Locals) (line : string)
      (rest : list string) :
  PyStr.startswith (command_text line) "pieces " = true ->
  exists mode,
    nth_error (PyStr.split (command_text line)) 1 = Some mode
    /\ player_turn g loc (line :: rest)
       = inl (Continue, fst (switch_pieces g mode), loc, rest,
              turn_prompt g :: snd (switch_pieces g mode)).
Proof.
  intros H. destruct (PyStrFacts.pieces_has_mode line H) as [mode M].
  exists mode. split; [exact M|].
  destruct (pieces_is_no_other_command _ H) as (H1 & H2 & H3).
  unfold command_text in *. unfold player_turn.
  rewrite H1, H2, H3, H, M. now destruct (switch_pieces g mode).
Qed.

(** C8: a [pieces] command always names a mode (its second word), and the
    loop goes on to its next pass without raising.  For the modes
    [unicode] and [letters], and for no other, [piece_mode] becomes the
    mode and the switch is announced; for every other mode the game is
    left as it was and the invalid-mode line is printed.  Either way the
    board and the move history are unchanged. *)
Theorem piece_mode_command
  (g : Game) (loc : Locals) (line : string) (rest : list string) :
  PyStr.startswith (command_text line) "pieces " = true ->
  exists (mode : string) (g' : Game) (out : list Output),
    nth_error (PyStr.split (command_text line)) 1 = Some mode
    /\ player_turn g loc (line :: rest)
       = inl (Continue, g', loc, rest, turn_prompt g :: out)
    /\ board g' = board g
    /\ move_history g' = move_history g
    /\ (((mode = "unicode" \/ mode = "letters")
         /\ g' = set_piece_mode g mode
         /\ piece_mode g' = mode
         /\ out = [Print (Msg.switched_to mode)])
        \/ ((mode <> "unicode" /\ mode <> "letters")
            /\ g' = g
            /\ piece_mode g' = piece_mode g
            /\ out = [Print Msg.invalid_piece_mode])).
Proof.
  intros H. destruct (player_turn_pieces g loc line rest H) as (mode & M & E).
  exists mode, (fst (switch_pieces g mode)), (snd (switch_pieces g mode)).
  destruct (switch_pieces_frame g mode) as (Fb & Fh & _ & _).
  repeat (split; [assumption|]).
  unfold switch_pieces. simpl existsb.
  destruct (String.eqb_spec mode "unicode") as [U|U];
    [left; now repeat split; try left|].
  destruct (String.eqb_spec mode "letters") as [L|L];
    [left; now repeat split; try right|].
  right. now repeat split.
Qed.

(** C10: the loop recognises its command words on the input line stripped
    of white space and put in lower case.  Two lines with the same
    command text, when that text is a command, are handled alike; and a
    line recognised as [help], [quit], [exit] or [pieces ...] is handled
    without raising (except that [help] waits for one more line, and
    raises [EOFError] when there is none) and leaves the board and the
    move history as they were. *)
Theorem commands_ignore_case_and_keep_the_game
  (g : Game) (loc : Locals) (line line' : string) (rest : list string) :
  command_text line' = command_text line ->
  is_command (command_text line) = true ->
  player_turn g loc (line' :: rest) = player_turn g loc (line :: rest)
  /\ (command_text line = "undo" ->
      player_turn g loc (line :: rest)
      = match undo_move g with
        | inl (g', out) => inl (Continue, g', loc, rest, turn_prompt g :: out)
        | inr e => inr e
        end)
  /\ (is_quiet_command (command_text line) = true ->
      (exists ctl g' loc' rest' out,
          player_turn g loc (line :: rest) = inl (ctl, g', loc', rest', out)
          /\ board g' = board g
          /\ move_history g' = move_history g)
      \/ (command_text line = "help" /\ rest = []
          /\ player_turn g loc (line :: rest) = inr EOFError)).
Proof.
  intros Hsame Hcmd. split; [|split].
  - unfold command_text in *. unfold player_turn. rewrite Hsame.
    unfold is_command, is_quiet_command in Hcmd.
    destruct (PyStr.lower (PyStr.strip line) == "help"); [reflexivity|].
    simpl existsb.
    destruct (PyStr.lower (PyStr.strip line) == "quit"); [reflexivity|].
    destruct (PyStr.lower (PyStr.strip line) == "exit"); [reflexivity|].
    destruct (PyStr.lower (PyStr.strip line) == "undo"); [reflexivity|].
    simpl in Hcmd. rewrite Bool.orb_false_r in Hcmd. now rewrite Hcmd.
  - unfold command_text. intros E. unfold player_turn. now rewrite E.
  - intros Hq. unfold is_quiet_command in Hq.
    destruct (command_text line == "help") eqn:Hh.
    { unfold command_text in Hh. destruct rest as [|l2 rest].
      - right. apply String.eqb_eq in Hh. repeat split; [exact Hh|].
        unfold player_turn. unfold command_text in Hh. now rewrite Hh.
      - left. exists Continue, g, loc, rest.
        eexists. unfold player_turn. rewrite Hh. now repeat split. }
    destruct (PyStr.startswith (command_text line) "pieces ") eqn:Hp.
    { left. destruct (player_turn_pieces g loc line rest Hp) as (mode & _ & E).
      destruct (switch_pieces_frame g mode) as (Fb & Fh & _ & _).
      now exists Continue, (fst (switch_pieces g mode)), loc, rest,
        (turn_prompt g :: snd (switch_pieces g mode)). }
    left. exists Break, g, loc, rest, [turn_prompt g].
    unfold command_text in *. unfold player_turn. rewrite Hh.
    simpl existsb. simpl in Hq. rewrite Bool.orb_false_r in Hq.
    rewrite Bool.orb_false_r. now rewrite Hq.
Qed.

(** *** History and board in step *)

Lemma make_move_in_step (g g' : Game) (text : string) (ok : bool)
      (out : list Output) :
  make_move g text = (ok, g', out) ->
  in_step g -> in_step g' /\ game_mode g' = game_mode g.
Proof.
  intros H I.
  destruct (make_move_cases g text) as [(m & _ & _ & E)|[(m & _ & _ & E)|(e & _ & E)]];
    rewrite E in H; injection H as _ <- _; try now split.
  split; [|reflexivity]. unfold in_step in *. simpl.
  now rewrite move_stack_push, I.
Qed.

Lemma undo_move_in_step (g : Game) :
  in_step g ->
  exists g' out,
    undo_move g = inl (g', out) /\ in_step g' /\ game_mode g' = game_mode g.
Proof.
  intros I. unfold undo_move. destruct (move_history g) as [|m0 h] eqn:Hh.
  - exists g. eexists. now repeat split.
  - destruct (pop (board g)) as [[m b]|] eqn:P.
    + eexists. eexists. split; [reflexivity|]. split; [|reflexivity].
      unfold in_step in *. rewrite Hh in I.
      cbn [move_history board set_move_history set_board].
      rewrite I, (move_stack_pop _ P). now rewrite removelast_last.
    + exfalso. unfold pop in P.
      destruct (py_pop (stack (board g))) as [[[p m] r]|] eqn:Q; [discriminate|].
      apply py_pop_nil in Q. unfold in_step, move_stack in I.
      rewrite Hh, Q in I. discriminate.
Qed.

(** In a game between two players whose history is in step with its
    board, a pass of the loop ends in the same condition, and the only
    exception it can raise is the end of the input. *)
Lemma loop_body_pvp (g : Game) (loc : Locals) (stdin : list string) :
  game_mode g = "pvp" -> in_step g ->
  match loop_body g loc stdin with
  | inl (_, g', _, _, _) => game_mode g' = "pvp" /\ in_step g'
  | inr e => e = EOFError
  end.
Proof.
  intros M I. unfold loop_body. rewrite M. simpl andb.
  destruct stdin as [|line rest]; [reflexivity|].
  unfold player_turn.
  destruct (PyStr.lower (PyStr.strip line) == "help").
  { destruct rest; [reflexivity|now split]. }
  destruct (existsb _ ["quit"; "exit"]); [now split|].
  destruct (PyStr.lower (PyStr.strip line) == "undo").
  { destruct (undo_move_in_step I) as (g' & out & -> & I' & M').
    split; [congruence|assumption]. }
  destruct (PyStr.startswith (PyStr.lower (PyStr.strip line)) "pieces ") eqn:Hp.
  { destruct (PyStrFacts.pieces_has_mode line Hp) as [mode ->].
    destruct (switch_pieces_frame g mode) as (Fb & Fh & Fm & _).
    destruct (switch_pieces g mode) as [g' out]. simpl in *.
    split; [congruence|]. unfold in_step. now rewrite Fb, Fh. }
  destruct (make_move g (PyStr.strip line)) as [[ok g'] out] eqn:E.
  destruct (make_move_in_step _ E I) as [I' M'].
  destruct ok; (split; [congruence|assumption]).
Qed.

Lemma play_loop_pvp (fuel : nat) (g : Game) (loc : Locals) (stdin : list string) :
  game_mode g = "pvp" -> in_step g ->
  match snd (play_loop fuel g loc stdin) with
  | Finished g' | StillRunning g' _ _ => game_mode g' = "pvp" /\ in_step g'
  | Raised e => e = EOFError
  end.
Proof.
  revert g loc stdin. induction fuel as [|fuel IH]; intros g loc stdin M I;
    [now split|].
  simpl. destruct (is_game_over (board g)); [now split|].
  pose proof (loop_body_pvp loc stdin M I) as B.
  destruct (loop_body g loc stdin) as [[[[[[] g'] loc'] stdin'] out]|e];
    [| |exact B].
  - destruct B as [M' I']. specialize (IH g' loc' stdin' M' I').
    now destruct (play_loop fuel g' loc' stdin').
  - exact B.
Qed.

(** C4: a session created in [pvc] mode on a machine where [popen_uci]
    fails for every probed path comes out of its constructor, which has
    no exceptional outcome, in [pvp] mode with no engine, the initial
    board and the two fallback lines printed.  From then on
    [computer_move] does nothing, every pass of the loop is a player's
    turn, and [play] can only stop by finishing or by running out of
    input. *)
Theorem no_engine_falls_back_to_pvp (h : Host) (d : Z) :
  (forall path, In path (get_stockfish_paths h) -> popen_uci h path = None) ->
  let g := mkGame new_board "pvp" d [] None "unicode" in
  init h "pvc" d
  = (g, [Print Msg.stockfish_not_found; Print Msg.defaulting_to_pvp])
  /\ computer_move g = (None, g, [])
  /\ (forall loc stdin,
         loop_body g loc stdin
         = match player_turn g loc stdin with
           | inl (c, g', loc', stdin', out) =>
               inl (c, g', loc', stdin',
                    BoardPanel (board g) (last_move loc) (legal_moves loc)
                               (piece_mode g) :: out)
           | inr e => inr e
           end)
  /\ (forall fuel stdin,
         match snd (play fuel g stdin) with
         | Finished g' | StillRunning g' _ _ => game_mode g' = "pvp"
         | Raised e => e = EOFError
         end).
Proof.
  intros H g. repeat split.
  - unfold init. simpl. unfold setup_stockfish. simpl.
    now rewrite (@probe_nothing_starts h d _ None H).
  - intros fuel stdin. unfold play.
    pose proof (@play_loop_pvp fuel g (mkLocals None None) stdin eq_refl eq_refl) as P.
    destruct (snd (play_loop fuel g _ stdin)); tauto.
Qed.

(** *** [show_result] *)

Lemma announce_injective (r r' : TerminationReason) :
  @announce Position r = announce r' -> r = r'.
Proof.
  destruct r as [[]| | | |], r' as [[]| | | |]; simpl; intros H;
    try reflexivity; discriminate H.
Qed.

(** C7: [show_result] reports the first of checkmate, stalemate,
    insufficient material, fifty moves and threefold repetition, in that
    order, that the board satisfies, and nothing when it satisfies none.
    When it reports checkmate, the winner it names is the side that is not
    to move. *)
Theorem show_result_follows_priority (g : Game) :
  show_result g
  = match is_terminal (board g) with
    | Some r => [announce r]
    | None => []
    end
  /\ (is_checkmate (position (board g)) = true ->
      show_result g
      = [Print (Msg.checkmate
                  (color_name (opposite (turn (position (board g))))))]).
Proof.
  unfold show_result, is_terminal. simpl.
  destruct (is_checkmate (position (board g))).
  - destruct (turn (position (board g))); now split.
  - split; [|discriminate].
    destruct (is_stalemate (position (board g))); [reflexivity|].
    destruct (is_insufficient_material (position (board g))); [reflexivity|].
    destruct (is_fifty_moves (position (board g))); [reflexivity|].
    destruct (is_repetition (board g)); reflexivity.
Qed.

End SessionProperties.

(** ** More properties of the session, for every rules oracle *)
Section MoreSessionProperties.

Variable Position : Type.
Context {oracle : RulesOracle Position}.

Local Abbreviation Board := (Board Position).
Local Abbreviation Game := (Game Position).
Local Abbreviation Host := (Host Position).
Local Abbreviation Engine := (Engine Position).
Local Abbreviation Output := (Output Position).

(** *** What the operations leave alone *)

(** The settings of a session: its mode, its engine and its skill
    level. *)
Lemma make_move_settings (g g' : Game) (text : string) (ok : bool)
      (out : list Output) :
  make_move g text = (ok, g', out) ->
  game_mode g' = game_mode g /\ engine g' = engine g
  /\ difficulty g' = difficulty g.
Proof.
  intros H.
  destruct (make_move_cases g text) as [(m & _ & _ & E)|[(m & _ & _ & E)|(e & _ & E)]];
    rewrite E in H; injection H as _ <- _; now repeat split.
Qed.

Lemma computer_move_settings (g g' : Game) (r : option Move) (out : list Output) :
  computer_move g = (r, g', out) ->
  game_mode g' = game_mode g /\ engine g' = engine g
  /\ difficulty g' = difficulty g /\ move_history g' = move_history g
  /\ (stack (board g') = stack (board g)
      \/ exists m, stack (board g') = stack (board g) ++ [(position (board g), m)]).
Proof.
  unfold computer_move. intros H.
  assert (Same : forall r0 o0, (r0, g, o0) = (r, g', out) ->
                 game_mode g' = game_mode g /\ engine g' = engine g
                 /\ difficulty g' = difficulty g /\ move_history g' = move_history g
                 /\ (stack (board g') = stack (board g)
                     \/ exists m, stack (board g') = stack (board g) ++ [(position (board g), m)])).
  { intros r0 o0 E. injection E as _ <- _. repeat (split; [reflexivity|]). now left. }
  destruct (game_mode g == "pvc"), (engine g) as [e|] eqn:Eg;
    try (eapply Same; eassumption).
  destruct (engine_play e (board g)) as [[m|]|err]; try (eapply Same; eassumption).
  injection H as _ <- _. repeat (split; [first [reflexivity|exact Eg]|]). right. now exists m.
Qed.

Lemma undo_move_settings (g g' : Game) (out : list Output) :
  undo_move g = inl (g', out) ->
  game_mode g' = game_mode g /\ engine g' = engine g
  /\ difficulty g' = difficulty g.
Proof.
  unfold undo_move. destruct (move_history g) as [|m0 hist].
  - intros H. injection H as <- _. now repeat split.
  - destruct (pop (board g)) as [[m b]|]; [|discriminate].
    intros H. injection H as <- _. now repeat split.
Qed.

Lemma player_turn_settings (g g' : Game) (loc loc' : Locals)
      (stdin stdin' : list string) (c : Control) (out : list Output) :
  player_turn g loc stdin = inl (c, g', loc', stdin', out) ->
  game_mode g' = game_mode g /\ engine g' = engine g
  /\ difficulty g' = difficulty g.
Proof.
  unfold player_turn. destruct stdin as [|line rest]; [discriminate|].
  destruct (PyStr.lower (PyStr.strip line) == "help").
  { destruct rest; [discriminate|]. intros H. injection H as _ <- _ _ _.
    now repeat split. }
  destruct (existsb _ ["quit"; "exit"]).
  { intros H. injection H as _ <- _ _ _. now repeat split. }
  destruct (PyStr.lower (PyStr.strip line) == "undo").
  { destruct (undo_move g) as [[g1 o]|] eqn:U; [|discriminate].
    intros H. injection H as _ <- _ _ _. now apply undo_move_settings in U. }
  destruct (PyStr.startswith _ "pieces ").
  { destruct (nth_error _ 1) as [mode|]; [|discriminate].
    destruct (switch_pieces_frame g mode) as (_ & _ & Fm & Fe).
    destruct (switch_pieces g mode) as [g1 o] eqn:S. simpl in *.
    intros H. injection H as _ <- _ _ _. repeat split; try assumption.
    unfold switch_pieces in S. destruct (existsb _ _); now injection S as <- _. }
  destruct (make_move g (PyStr.strip line)) as [[ok g1] o] eqn:E.
  pose proof E as E'. apply make_move_settings in E'. destruct E' as (A & B & C).
  destruct ok; intros H; injection H as _ <- _ _ _; now repeat split.
Qed.

Lemma loop_body_settings (g g' : Game) (loc loc' : Locals)
      (stdin stdin' : list string) (c : Control) (out : list Output) :
  loop_body g loc stdin = inl (c, g', loc', stdin', out) ->
  game_mode g' = game_mode g /\ engine g' = engine g
  /\ difficulty g' = difficulty g.
Proof.
  unfold loop_body. destruct (_ && _).
  - destruct (computer_move g) as [[m g1] o] eqn:E.
    intros H. injection H as _ <- _ _ _.
    apply computer_move_settings in E. destruct E as (A & B & C & _). now repeat split.
  - destruct (player_turn g loc stdin) as [[[[[c1 g1] l1] s1] o1]|] eqn:E;
      [|discriminate].
    intros H. injection H as _ <- _ _ _. now apply player_turn_settings in E.
Qed.

(** X2: [play] never changes the mode, the engine or the skill level of
    the session it runs, whatever is typed and however long it runs. *)
Theorem play_keeps_the_settings
  (fuel : nat) (g : Game) (loc : Locals) (stdin : list string) :
  match snd (play_loop fuel g loc stdin) with
  | Finished g' | StillRunning g' _ _ =>
      game_mode g' = game_mode g /\ engine g' = engine g
      /\ difficulty g' = difficulty g
  | Raised _ => True
  end.
Proof.
  revert g loc stdin. induction fuel as [|fuel IH]; intros g loc stdin;
    [now repeat split|].
  simpl. destruct (is_game_over (board g)); [now repeat split|].
  destruct (loop_body g loc stdin) as [[[[[[] g'] loc'] stdin'] out]|e] eqn:B;
    [| |exact I].
  - pose proof B as B'. apply loop_body_settings in B'. destruct B' as (A1 & A2 & A3).
    specialize (IH g' loc' stdin').
    destruct (play_loop fuel g' loc' stdin') as [o [g2|e|g2 l2 s2]]; simpl in *;
      trivial; destruct IH as (B1 & B2 & B3); repeat split; congruence.
  - now apply loop_body_settings in B.
Qed.


(** *** The history never outgrows the board *)

Local Abbreviation within g :=
  (List.length (move_history g) <= List.length (stack (board g))).

Lemma length_removelast_cons {A} (a : A) (l : list A) :
  List.length (removelast (a :: l)) = List.length l.
Proof.
  revert a. induction l as [|b l IH]; intros a; [reflexivity|].
  change (removelast (a :: b :: l)) with (a :: removelast (b :: l)).
  cbn [List.length]. now rewrite IH.
Qed.

Lemma py_pop_some {A} (l r : list A) (x : A) :
  py_pop l = Some (x, r) -> l = r ++ [x].
Proof.
  unfold py_pop. destruct (rev l) as [|y t] eqn:R; [discriminate|].
  intros H. injection H as -> <-.
  apply (f_equal (@rev A)) in R. rewrite rev_involutive in R. now simpl in R.
Qed.

Lemma make_move_within (g g' : Game) (text : string) (ok : bool)
      (out : list Output) :
  make_move g text = (ok, g', out) -> within g -> within g'.
Proof.
  intros H W.
  destruct (make_move_cases g text) as [(m & _ & _ & E)|[(m & _ & _ & E)|(e & _ & E)]];
    rewrite E in H; injection H as _ <- _; try assumption.
  simpl. rewrite !length_app. simpl. lia.
Qed.

Lemma computer_move_within (g g' : Game) (r : option Move) (out : list Output) :
  computer_move g = (r, g', out) -> within g -> within g'.
Proof.
  intros H W. apply computer_move_settings in H.
  destruct H as (_ & _ & _ & Hh & [Hs|[m Hs]]); rewrite Hh, Hs; [assumption|].
  rewrite length_app. simpl. lia.
Qed.

Lemma undo_move_within (g : Game) :
  within g -> exists g' out, undo_move g = inl (g', out) /\ within g'.
Proof.
  intros W. unfold undo_move. destruct (move_history g) as [|m0 hist] eqn:Hh.
  - exists g. eexists. split; [reflexivity|]. now rewrite Hh.
  - unfold pop. destruct (py_pop (stack (board g))) as [[[p m] rest]|] eqn:P.
    + eexists. eexists. split; [reflexivity|].
      apply py_pop_some in P. cbn [move_history board set_move_history set_board stack].
      rewrite P, length_app in W. simpl in W.
      pose proof (length_removelast_cons m0 hist) as L.
      rewrite L. lia.
    + apply py_pop_nil in P. rewrite P in W. simpl in W. lia.
Qed.

Lemma player_turn_within (g : Game) (loc : Locals) (stdin : list string) :
  within g ->
  match player_turn g loc stdin with
  | inl (_, g', _, _, _) => within g'
  | inr e => e = EOFError
  end.
Proof.
  intros W. unfold player_turn. destruct stdin as [|line rest]; [reflexivity|].
  destruct (PyStr.lower (PyStr.strip line) == "help").
  { destruct rest; [reflexivity|assumption]. }
  destruct (existsb _ ["quit"; "exit"]); [assumption|].
  destruct (PyStr.lower (PyStr.strip line) == "undo").
  { destruct (undo_move_within g W) as (g' & out & -> & W'). assumption. }
  destruct (PyStr.startswith (PyStr.lower (PyStr.strip line)) "pieces ") eqn:Hp.
  { destruct (PyStrFacts.pieces_has_mode line Hp) as [mode ->].
    destruct (switch_pieces_frame g mode) as (Fb & Fh & _ & _).
    destruct (switch_pieces g mode) as [g' out]. simpl in *. now rewrite Fb, Fh. }
  destruct (make_move g (PyStr.strip line)) as [[ok g'] out] eqn:E.
  apply make_move_within in E; [|assumption]. now destruct ok.
Qed.

Lemma loop_body_within (g : Game) (loc : Locals) (stdin : list string) :
  within g ->
  match loop_body g loc stdin with
  | inl (_, g', _, _, _) => within g'
  | inr e => e = EOFError
  end.
Proof.
  intros W. unfold loop_body. destruct (_ && _).
  - destruct (computer_move g) as [[m g'] out] eqn:E.
    now apply computer_move_within in E.
  - pose proof (player_turn_within g loc stdin W) as P.
    now destruct (player_turn g loc stdin) as [[[[[c g'] loc'] stdin'] out]|e].
Qed.

Lemma play_loop_within (fuel : nat) (g : Game) (loc : Locals) (stdin : list string) :
  within g ->
  match snd (play_loop fuel g loc stdin) with
  | Finished g' | StillRunning g' _ _ => within g'
  | Raised e => e = EOFError
  end.
Proof.
  revert g loc stdin. induction fuel as [|fuel IH]; intros g loc stdin W;
    [assumption|].
  simpl. destruct (is_game_over (board g)); [assumption|].
  pose proof (loop_body_within g loc stdin W) as B.
  destruct (loop_body g loc stdin) as [[[[[[] g'] loc'] stdin'] out]|e];
    [| |exact B].
  - specialize (IH g' loc' stdin' B).
    now destruct (play_loop fuel g' loc' stdin').
  - exact B.
Qed.

Lemma play_loop_keeps_mode (fuel : nat) (g : Game) (loc : Locals)
      (stdin : list string) :
  match snd (play_loop fuel g loc stdin) with
  | Finished g' | StillRunning g' _ _ => game_mode g' = game_mode g
  | Raised _ => True
  end.
Proof.
  revert g loc stdin. induction fuel as [|fuel IH]; intros g loc stdin;
    [reflexivity|].
  simpl. destruct (is_game_over (board g)); [reflexivity|].
  destruct (loop_body g loc stdin) as [[[[[[] g'] loc'] stdin'] out]|e] eqn:B;
    [| |exact I]; apply loop_body_settings in B; destruct B as (Sm & _ & _).
  - specialize (IH g' loc' stdin').
    destruct (play_loop fuel g' loc' stdin') as [o [g2|e|g2 l2 s2]]; simpl in *;
      trivial; congruence.
  - exact Sm.
Qed.

(** X1: in a session that is not in [pvc] mode, where no engine is
    asked, [play] never raises [IndexError]: [undo] never pops an empty
    board, since the board always has at least as many moves as the
    history, and a [pieces] command always has its second word.  Of the
    exceptions of the loop's own code only the end of the input is left.
    (Against the computer line 203 prints the engine's error text as
    markup, which can raise; that is not followed here.) *)
Theorem play_outside_pvc_never_raises_index_error
  (g : Game) (fuel : nat) (loc : Locals) (stdin : list string) :
  (game_mode g == "pvc") = false ->
  List.length (move_history g) <= List.length (move_stack (board g)) ->
  match snd (play_loop fuel g loc stdin) with
  | Finished g' | StillRunning g' _ _ =>
      (game_mode g' == "pvc") = false
      /\ List.length (move_history g') <= List.length (move_stack (board g'))
  | Raised e => e = EOFError
  end.
Proof.
  intros M W. unfold move_stack in W. rewrite length_map in W.
  pose proof (play_loop_within fuel g loc stdin W) as P.
  pose proof (play_loop_keeps_mode fuel g loc stdin) as S.
  destruct (snd (play_loop fuel g loc stdin)) as [g'|e|g' loc' stdin'];
    [|exact P|];
    (split; [now rewrite S|unfold move_stack; now rewrite length_map]).
Qed.

(** *** Sessions that are not against the computer *)

Lemma player_turn_in_step (g : Game) (loc : Locals) (stdin : list string) :
  in_step g ->
  match player_turn g loc stdin with
  | inl (_, g', _, _, _) => in_step g'
  | inr _ => True
  end.
Proof.
  intros I. unfold player_turn. destruct stdin as [|line rest]; [exact Logic.I|].
  destruct (PyStr.lower (PyStr.strip line) == "help").
  { destruct rest; [exact Logic.I|assumption]. }
  destruct (existsb _ ["quit"; "exit"]); [assumption|].
  destruct (PyStr.lower (PyStr.strip line) == "undo").
  { destruct (undo_move_in_step I) as (g' & out & -> & I' & _). assumption. }
  destruct (PyStr.startswith (PyStr.lower (PyStr.strip line)) "pieces ").
  { destruct (nth_error _ 1) as [mode|]; [|exact Logic.I].
    destruct (switch_pieces_frame g mode) as (Fb & Fh & _ & _).
    destruct (switch_pieces g mode) as [g' out]. simpl in *.
    unfold in_step. now rewrite Fb, Fh. }
  destruct (make_move g (PyStr.strip line)) as [[ok g'] out] eqn:E.
  apply make_move_in_step in E; [|assumption]. now destruct ok.
Qed.

(** X3: in a session whose mode is not [pvc], the move history is the
    move stack of the board for as long as [play] runs. *)
Theorem history_is_the_move_stack_outside_pvc
  (g : Game) (fuel : nat) (loc : Locals) (stdin : list string) :
  (game_mode g == "pvc") = false ->
  in_step g ->
  match snd (play_loop fuel g loc stdin) with
  | Finished g' | StillRunning g' _ _ => move_history g' = move_stack (board g')
  | Raised _ => True
  end.
Proof.
  revert g loc stdin. induction fuel as [|fuel IH]; intros g loc stdin M I;
    [assumption|].
  simpl. destruct (is_game_over (board g)); [assumption|].
  destruct (loop_body g loc stdin) as [[[[[c g'] loc'] stdin'] out]|e] eqn:B;
    [|exact Logic.I].
  pose proof B as S. apply loop_body_settings in S. destruct S as (Sm & _ & _).
  assert (I' : in_step g').
  { unfold loop_body in B. rewrite M in B. simpl in B.
    pose proof (player_turn_in_step loc stdin I) as P.
    destruct (player_turn g loc stdin) as [[[[[c1 g1] l1] s1] o1]|]; [|discriminate].
    now injection B as _ <- _ _ _. }
  destruct c.
  - specialize (IH g' loc' stdin'). rewrite Sm in IH. specialize (IH M I').
    now destruct (play_loop fuel g' loc' stdin').
  - exact I'.
Qed.

(** *** An engine that fails *)

(** X4: in a [pvc] session with Black to move, a pass of the loop in which
    the engine fails, with an error text that holds no opening bracket or
    by answering without a move, prints the error line and ends with
    [continue]: the game is as it was, the last-move highlight is cleared,
    and no line of input is read, so the player is not asked to move in
    that pass; the next pass draws the board and asks the engine again. *)
Theorem failed_engine_call_skips_the_prompt
  (g : Game) (e : Engine) (err : string) (loc : Locals) (stdin : list string) :
  game_mode g = "pvc" ->
  turn (position (board g)) = Black ->
  engine g = Some e ->
  engine_play e (board g) = PlayRaises err
  \/ (engine_play e (board g) = PlayResult None
      /\ err = Msg.none_has_no_from_square) ->
  markup_free err = true ->
  loop_body g loc stdin
  = inl (Continue, g, mkLocals None (legal_moves loc), stdin,
         [BoardPanel (board g) (last_move loc) (legal_moves loc) (piece_mode g);
          Print (Msg.computer_move_error err)]).
Proof.
  intros M T E F _. unfold loop_body, current_player, computer_move.
  rewrite M, T, E. simpl.
  destruct F as [->|[-> ->]]; reflexivity.
Qed.

(** *** Text that is not a command *)

Lemma peek_push (b : Board) (m : Move) : peek (push b m) = Some m.
Proof.
  unfold peek. rewrite move_stack_push, map_app. simpl. apply last_last.
Qed.

(** X8: a line that is not a command is handed to [make_move], stripped
    but with its case kept, and the loop goes on without raising.  When the
    move is rejected the game and the highlights stay as they were; when it
    is accepted the move is appended to the history and becomes the last
    move to highlight, with the legal moves of the new position. *)
Theorem other_lines_are_tried_as_moves
  (g : Game) (loc : Locals) (line : string) (rest : list string) :
  is_command (command_text line) = false ->
  exists ok g' loc' out,
    make_move g (PyStr.strip line) = (ok, g', out)
    /\ player_turn g loc (line :: rest)
       = inl (Continue, g', loc', rest, turn_prompt g :: out)
    /\ (ok = false -> g' = g /\ loc' = loc)
    /\ (ok = true ->
        exists m,
          move_history g' = move_history g ++ [m]
          /\ last_move loc' = Some m
          /\ legal_moves loc'
             = Some (generate_legal_moves (position (board g')))).
Proof.
  intros H. unfold is_command, is_quiet_command, command_text in H.
  apply Bool.orb_false_elim in H. destruct H as [H Hu].
  apply Bool.orb_false_elim in H. destruct H as [H Hp].
  apply Bool.orb_false_elim in H. destruct H as [H He].
  apply Bool.orb_false_elim in H. destruct H as [Hh Hq].
  unfold player_turn. simpl existsb. rewrite Hh, Hq, He, Hu, Hp. simpl.
  destruct (make_move_cases g (PyStr.strip line))
    as [(m & _ & _ & E)|[(m & _ & _ & E)|(e & _ & E)]]; rewrite E.
  - eexists. eexists. eexists. eexists. split; [reflexivity|].
    split; [reflexivity|]. split; [discriminate|]. intros _. exists m.
    split; [reflexivity|]. split; [|reflexivity]. simpl. apply peek_push.
  - eexists. eexists. eexists. eexists. split; [reflexivity|].
    split; [reflexivity|]. split; [now split|discriminate].
  - eexists. eexists. eexists. eexists. split; [reflexivity|].
    split; [reflexivity|]. split; [now split|discriminate].
Qed.

(** X13: from any game, also in the middle of one or against the
    computer, the moves that [make_move] accepts are all taken back by as
    many calls of [undo_move], none of which raises, and the game is then
    exactly the one the moves started from. *)
Theorem undo_takes_back_moves_from_any_game
  (g g' : Game) (texts : list string) :
  make_moves g texts = Some g' ->
  undo_times (List.length texts) g' = Some g.
Proof. apply undo_all. Qed.

(** *** The probe *)

Lemma last_cons {A} (a d : A) (l : list A) : last (a :: l) d = last l a.
Proof.
  revert a d. induction l as [|b l IH]; intros a d; [reflexivity|].
  change (last (a :: b :: l) d) with (last (b :: l) d). now rewrite !IH.
Qed.

(** [probe] stops at the first usable path; when there is none it keeps
    the last engine that started. *)
Lemma probe_find (h : Host) (d : Z) (paths : list string) (eng : option Engine) :
  probe h d paths eng
  = match find (usable h d) paths with
    | Some path => (true, popen_uci h path)
    | None => (false, last (map Some (launched h paths)) eng)
    end.
Proof.
  revert eng. induction paths as [|path rest IH]; intros eng; [reflexivity|].
  cbn [probe find]. unfold launched. cbn [flat_map]. fold (launched h rest).
  destruct (popen_uci h path) as [e|] eqn:P.
  - assert (U : usable h d path = accepts_skill_level e d)
      by (unfold usable; now rewrite P).
    rewrite U. destruct (accepts_skill_level e d); [now rewrite P|].
    rewrite IH. destruct (find (usable h d) rest); [reflexivity|].
    cbn [app map]. now rewrite last_cons.
  - assert (U : usable h d path = false) by (unfold usable; now rewrite P).
    rewrite U. apply IH.
Qed.

(** X5: when some probed path starts an engine that accepts the skill
    level, a [pvc] session is created in [pvc] mode with the engine of the
    first such path, and nothing is printed. *)
Theorem first_usable_path_gives_the_engine
  (h : Host) (d : Z) (path : string) :
  find (usable h d) (get_stockfish_paths h) = Some path ->
  exists e,
    popen_uci h path = Some e
    /\ accepts_skill_level e d = true
    /\ init h "pvc" d = (mkGame new_board "pvc" d [] (Some e) "unicode", []).
Proof.
  intros F. pose proof (find_some _ _ F) as [_ U]. unfold usable in U.
  destruct (popen_uci h path) as [e|] eqn:P; [|discriminate].
  exists e. repeat split; [assumption|].
  unfold init. simpl. unfold setup_stockfish. simpl.
  now rewrite probe_find, F, P.
Qed.

(** X6: when no probed path is usable, a [pvc] session falls back to [pvp]
    and prints the two fallback lines, but it keeps as its engine the last
    one that started (and then refused the skill level); it has no engine
    only if none started. *)
Theorem fallback_keeps_the_last_engine_started (h : Host) (d : Z) :
  find (usable h d) (get_stockfish_paths h) = None ->
  init h "pvc" d
  = (mkGame new_board "pvp" d []
            (last (map Some (launched h (get_stockfish_paths h))) None)
            "unicode",
     [Print Msg.stockfish_not_found; Print Msg.defaulting_to_pvp]).
Proof.
  intros F. unfold init. simpl. unfold setup_stockfish. simpl.
  now rewrite probe_find, F.
Qed.

(** X12: a newly created session is in [pvc] mode only with an engine that
    has accepted the skill level. *)
Theorem pvc_session_has_a_configured_engine (h : Host) (mode : string) (d : Z) :
  game_mode (fst (init h mode d)) = "pvc" ->
  exists e,
    engine (fst (init h mode d)) = Some e
    /\ accepts_skill_level e d = true.
Proof.
  unfold init. destruct (mode == "pvc") eqn:M.
  - unfold setup_stockfish. simpl. rewrite probe_find.
    destruct (find (usable h d) (get_stockfish_paths h)) as [path|] eqn:F.
    + intros _. pose proof (find_some _ _ F) as [_ U]. unfold usable in U. simpl.
      destruct (popen_uci h path) as [e|]; [|discriminate]. now exists e.
    + simpl. discriminate.
  - simpl. intros E. rewrite E in M. discriminate.
Qed.


(** *** The paths that are probed *)

Lemma drop_prefix_app (p s rest : string) :
  PyStr.drop_prefix p s = Some rest -> s = String.append p rest.
Proof.
  revert s. induction p as [|a p IH]; intros s H.
  - simpl in H. now injection H as ->.
  - destruct s as [|b s]; [discriminate|]. simpl in H.
    destruct (Ascii.eqb_spec a b) as [<-|]; [|discriminate].
    simpl. f_equal. now apply IH.
Qed.

(** Replacing a text by itself changes nothing. *)
Lemma replace_same (s old : string) : PyStr.replace s old old = s.
Proof.
  unfold PyStr.replace. generalize (S (String.length s)) as fuel. intros fuel.
  revert s. induction fuel as [|fuel IH]; intros s; [reflexivity|].
  simpl. destruct (PyStr.drop_prefix old s) as [rest|] eqn:D.
  - rewrite IH. symmetry. now apply drop_prefix_app.
  - destruct s as [|c r]; [reflexivity|]. now rewrite IH.
Qed.

Lemma candidates_in_pairs (base : list string) (k : nat) :
  let variants path :=
    path :: map (fun name => PyStr.replace path "stockfish" name)
                ["stockfish"; "stockfish.exe"] in
  nth_error (flat_map variants base) (3 * k)
  = nth_error (flat_map variants base) (3 * k + 1).
Proof.
  intros variants. revert k. induction base as [|path rest IH]; intros k.
  - cbn [flat_map]. now rewrite !nth_error_nil.
  - destruct k as [|k].
    + simpl. now rewrite replace_same.
    + replace (3 * S k) with (S (S (S (3 * k)))) by lia.
      replace (S (S (S (3 * k))) + 1) with (S (S (S (3 * k + 1)))) by lia.
      simpl. apply IH.
Qed.

(** X7: [get_stockfish_paths] lists every candidate twice in a row, since
    replacing [stockfish] by [stockfish] in a path gives the path back: the
    entries at places 3k and 3k+1 are the same, so a path that fails to
    start an engine is tried again at once. *)
Theorem every_candidate_is_listed_twice (h : Host) (k : nat) :
  nth_error (get_stockfish_paths h) (3 * k)
  = nth_error (get_stockfish_paths h) (3 * k + 1).
Proof. unfold get_stockfish_paths. apply candidates_in_pairs. Qed.

(** X14: the executable that [shutil.which] finds is always among the
    probed paths, whatever the platform. *)
Theorem path_found_by_which_is_probed (h : Host) (system_path : string) :
  which_stockfish h = Some system_path ->
  system_path <> EmptyString ->
  In system_path (get_stockfish_paths h).
Proof.
  intros W N. unfold get_stockfish_paths. rewrite W.
  apply in_flat_map. exists system_path. split; [|now left].
  destruct system_path as [|c r]; [now destruct N|].
  apply in_or_app. right. now left.
Qed.

End MoreSessionProperties.

(** ** Scenarios on the executable oracle *)

Import PyChess Fixtures.

Lemma pvc_game_has_engine :
  game_mode pvc_game = "pvc" /\ engine pvc_game = Some e5_engine.
Proof. now vm_compute. Qed.

(** C2: in a [pvc] session the history falls out of step with the board.
    After the player's e4 and the engine's reply, which is the state [play]
    is in after two passes of its loop, two moves have been made on the
    board and one is in [move_history]. *)
Theorem engine_moves_missing_from_history :
  exists out g loc,
    play 2 pvc_game ["e4"] = (out, StillRunning g loc [])
    /\ List.length (move_stack (board g)) = 2
    /\ List.length (move_history g) = 1
    /\ ~ in_step g.
Proof.
  eexists. eexists. eexists.
  split; [vm_compute; reflexivity|].
  split; [reflexivity|]. split; [reflexivity|].
  unfold in_step. vm_compute. discriminate.
Qed.

(** The same session after [undo]: the engine's reply is taken off the
    board, the player's move off the history, and the loop has the engine
    move again at once. *)
Lemma undo_in_pvc_takes_back_the_wrong_move :
  exists out g loc,
    play 3 pvc_game ["e4"; "undo"] = (out, StillRunning g loc [])
    /\ move_stack (board g) = [mkMove 12 28 None]
    /\ move_history g = [].
Proof.
  eexists. eexists. eexists.
  split; [vm_compute; reflexivity|]. now split.
Qed.

(** C6: from the initial position "e4" is accepted, Black is then to move
    and the history has one move.  The second "e4" is rejected, but with
    the invalid-notation line: [parse_san] raises [IllegalMoveError], a
    [ValueError], so the branch that prints the illegal-move line is not
    reached. *)
Theorem second_e4_is_reported_as_invalid_notation :
  exists g1,
    make_move pvp_game "e4" = (true, g1, [])
    /\ turn (position (board g1)) = Black
    /\ List.length (move_history g1) = 1
    /\ parse_san (position (board g1)) "e4" = SanRaises IllegalMoveError
    /\ make_move g1 "e4" = (false, g1, [Print Msg.invalid_notation])
    /\ make_move g1 "e4" <> (false, g1, [Print Msg.illegal_move]).
Proof.
  eexists. split; [vm_compute; reflexivity|].
  repeat split; try (vm_compute; reflexivity).
  vm_compute. discriminate.
Qed.

(** C5: [make_move] does not keep its two failure modes apart.  After
    1. e4 the text "Nf3" is well-formed notation for a move that Black
    cannot make: [parse_san] raises [IllegalMoveError] for it, where it
    raises [InvalidMoveError] for the unreadable "e9".  [make_move] catches
    both as [ValueError]: the two calls have the same result, [False] with
    the invalid-notation line, and the illegal-move line is not printed. *)
Theorem illegal_move_is_reported_like_unreadable_text :
  exists g1,
    make_moves pvp_game ["e4"] = Some g1
    /\ parse_san (position (board g1)) "e9" = SanRaises InvalidMoveError
    /\ parse_san (position (board g1)) "Nf3" = SanRaises IllegalMoveError
    /\ make_move g1 "Nf3" = (false, g1, [Print Msg.invalid_notation])
    /\ make_move g1 "Nf3" = make_move g1 "e9".
Proof.
  eexists. split; [vm_compute; reflexivity|].
  repeat split; vm_compute; reflexivity.
Qed.

(** The illegal-move line is printed for the texts that [parse_san] reads
    as the null move, which is never legal. *)
Example null_move_is_reported_as_illegal :
  make_move pvp_game "--" = (false, pvp_game, [Print Msg.illegal_move]).
Proof. vm_compute. reflexivity. Qed.

(** *** Instances of the theorems with hypotheses *)

Lemma undo_restores_initial_game_witness :
  make_moves (fst (init bare_host "pvp" 2%Z)) ["e4"; "e5"; "Nf3"]
  = Some (after pvp_game ["e4"; "e5"; "Nf3"])
  /\ exists g'',
      undo_times (List.length ["e4"; "e5"; "Nf3"]) (after pvp_game ["e4"; "e5"; "Nf3"])
      = Some g''
      /\ g'' = fst (init bare_host "pvp" 2%Z)
      /\ board g'' = new_board
      /\ move_history g'' = [].
Proof.
  assert (H : make_moves (fst (init bare_host "pvp" 2%Z)) ["e4"; "e5"; "Nf3"]
              = Some (after pvp_game ["e4"; "e5"; "Nf3"]))
    by (vm_compute; reflexivity).
  split; [exact H|].
  exact (@undo_restores_initial_game Pos rules bare_host "pvp" 2%Z _ _ H).
Defined.

Lemma rejected_move_changes_nothing_witness :
  make_move pvp_game "e9" = (false, pvp_game, [Print Msg.invalid_notation])
  /\ pvp_game = pvp_game
  /\ board pvp_game = board pvp_game
  /\ move_history pvp_game = move_history pvp_game.
Proof.
  assert (H : make_move pvp_game "e9"
              = (false, pvp_game, [Print Msg.invalid_notation]))
    by (vm_compute; reflexivity).
  split; [exact H|].
  exact (@rejected_move_changes_nothing Pos rules _ _ _ _ H).
Defined.

Example make_move_failure_lines_at_start :
  make_move pvp_game "e9" = (false, pvp_game, [Print Msg.invalid_notation])
  /\ make_move pvp_game "--" = (false, pvp_game, [Print Msg.illegal_move])
  /\ make_move pvp_game "e9" <> make_move pvp_game "--".
Proof.
  apply (@make_move_failure_lines Pos rules pvp_game "e9" "--"
           InvalidMoveError null_move);
    vm_compute; reflexivity.
Qed.

Lemma failed_engine_move_keeps_board_witness :
  computer_move stalled_game
  = (None, stalled_game,
     [Print (Msg.computer_move_error "engine process died")])
  /\ stalled_game = stalled_game
  /\ board stalled_game = board stalled_game.
Proof.
  assert (H : computer_move stalled_game
              = (None, stalled_game,
                 [Print (Msg.computer_move_error "engine process died")]))
    by (vm_compute; reflexivity).
  split; [exact H|].
  exact (@failed_engine_move_keeps_board Pos rules _ _ _ H).
Defined.

Lemma no_engine_falls_back_to_pvp_witness :
  (forall path, In path (get_stockfish_paths bare_host) ->
                popen_uci bare_host path = None)
  /\ init bare_host "pvc" 2%Z
     = (pvp_game, [Print Msg.stockfish_not_found; Print Msg.defaulting_to_pvp]).
Proof.
  assert (H : forall path, In path (get_stockfish_paths bare_host) ->
                           popen_uci bare_host path = None)
    by (intros path _; reflexivity).
  split; [exact H|].
  exact (proj1 (@no_engine_falls_back_to_pvp Pos rules bare_host 2%Z H)).
Defined.

Lemma piece_mode_command_witness :
  PyStr.startswith (command_text "  Pieces   LETTERS ") "pieces " = true
  /\ exists (mode : string) (g' : Game Pos) (out : list (Output Pos)),
      nth_error (PyStr.split (command_text "  Pieces   LETTERS ")) 1 = Some mode
      /\ player_turn pvp_game (mkLocals None None) ["  Pieces   LETTERS "]
         = inl (Continue, g', mkLocals None None, [], turn_prompt pvp_game :: out)
      /\ board g' = board pvp_game
      /\ move_history g' = move_history pvp_game
      /\ (((mode = "unicode" \/ mode = "letters")
           /\ g' = set_piece_mode pvp_game mode
           /\ piece_mode g' = mode
           /\ out = [Print (Msg.switched_to mode)])
          \/ ((mode <> "unicode" /\ mode <> "letters")
              /\ g' = pvp_game
              /\ piece_mode g' = piece_mode pvp_game
              /\ out = [Print Msg.invalid_piece_mode])).
Proof.
  assert (H : PyStr.startswith (command_text "  Pieces   LETTERS ") "pieces " = true)
    by (vm_compute; reflexivity).
  split; [exact H|].
  exact (@piece_mode_command Pos rules pvp_game (mkLocals None None)
                             "  Pieces   LETTERS " [] H).
Defined.

Lemma commands_ignore_case_and_keep_the_game_witness :
  command_text " QUIT" = command_text "quit"
  /\ is_command (command_text "quit") = true
  /\ player_turn pvp_game (mkLocals None None) [" QUIT"]
     = player_turn pvp_game (mkLocals None None) ["quit"].
Proof.
  assert (H1 : command_text " QUIT" = command_text "quit")
    by (vm_compute; reflexivity).
  assert (H2 : is_command (command_text "quit") = true)
    by (vm_compute; reflexivity).
  split; [exact H1|]. split; [exact H2|].
  exact (proj1 (@commands_ignore_case_and_keep_the_game Pos rules pvp_game (mkLocals None None) "quit" " QUIT" [] H1 H2)).
Defined.

Lemma show_result_follows_priority_witness :
  is_checkmate (position (board mated_game)) = true
  /\ show_result mated_game
     = [Print (Msg.checkmate
                 (color_name (opposite (turn (position (board mated_game))))))].
Proof.
  assert (H : is_checkmate (position (board mated_game)) = true)
    by (vm_compute; reflexivity).
  split; [exact H|].
  exact (proj2 (@show_result_follows_priority Pos rules mated_game) H).
Defined.

Example fools_mate_is_won_by_black :
  show_result mated_game = [Print "[bold green]Checkmate! Black wins![/bold green]"].
Proof. vm_compute. reflexivity. Qed.

(** ** Properties of the drawing *)
Module RenderFacts.
Import PyChess Render.

Lemma all_some_map {A B} (f : A -> option B) (g : A -> B) (l : list A) :
  (forall x, In x l -> f x = Some (g x)) ->
  all_some (map f l) = Some (map g l).
Proof.
  induction l as [|a l IH]; intros H; [reflexivity|].
  simpl. rewrite (H a (or_introl eq_refl)), IH; [reflexivity|].
  intros x Hx. apply H. now right.
Qed.

(** Both dicts have a glyph for the symbol of every piece. *)
Lemma glyph_exists (piece_mode : string) (pc : Piece) :
  exists glyph,
    dict_get (pieces_of_mode piece_mode) (symbol pc) = Some glyph
    /\ pieces_shown_as (pieces_of_mode piece_mode) glyph = [symbol pc].
Proof.
  unfold pieces_of_mode.
  destruct (piece_mode == "unicode"), pc as [[] []];
    eexists; split; reflexivity.
Qed.

(** The text of a square: one piece of text, whose glyph stands for the
    piece on the square and for nothing else. *)
Lemma render_square_glyph (b : BoardOf Pos) (last_move : option Move)
      (legal_moves : option (list Move)) (piece_mode : string) (file rank : nat) :
  exists glyph style,
    render_square b last_move legal_moves (pieces_of_mode piece_mode) file rank
    = Some [(glyph, style)]
    /\ pieces_shown_as (pieces_of_mode piece_mode) glyph
       = match piece_at (squares (position b)) (square file rank) with
         | Some pc => [symbol pc]
         | None => []
         end.
Proof.
  unfold render_square.
  destruct (piece_at (squares (position b)) (square file rank)) as [pc|].
  - destruct (glyph_exists piece_mode pc) as (glyph & -> & G).
    eexists. eexists. split; [reflexivity|exact G].
  - eexists. eexists. split; [reflexivity|].
    unfold pieces_of_mode. now destruct (piece_mode == "unicode").
Qed.

(** The lines of a drawing are the lines of its squares. *)
Lemma board_display_lines (b : BoardOf Pos) (last_move : option Move)
      (legal_moves : option (list Move)) (piece_mode : string) :
  exists cell,
    board_display b last_move legal_moves (pieces_of_mode piece_mode)
    = Some (lines_of cell)
    /\ forall file rank,
        render_square b last_move legal_moves (pieces_of_mode piece_mode) file rank
        = Some [cell file rank].
Proof.
  exists (fun file rank =>
            match render_square b last_move legal_moves
                                (pieces_of_mode piece_mode) file rank with
            | Some [c] => c
            | _ => (EmptyString, EmptyString)
            end).
  assert (C : forall file rank,
             render_square b last_move legal_moves (pieces_of_mode piece_mode) file rank
             = Some [match render_square b last_move legal_moves
                                         (pieces_of_mode piece_mode) file rank with
                     | Some [c] => c
                     | _ => (EmptyString, EmptyString)
                     end]).
  { intros file rank.
    destruct (render_square_glyph b last_move legal_moves piece_mode file rank)
      as (glyph & style & -> & _). reflexivity. }
  split; [|exact C].
  unfold board_display, lines_of.
  erewrite all_some_map; [reflexivity|].
  intros rank _. unfold render_rank.
  erewrite all_some_map; [reflexivity|].
  intros file _. apply C.
Qed.

Lemma shown_at_lines_of (cell : nat -> nat -> string * string) (file rank : nat) :
  file < 8 -> rank < 8 -> shown_at (lines_of cell) file rank = cell file rank.
Proof.
  intros F R.
  do 8 (destruct file as [|file]; [do 8 (destruct rank as [|rank]; [reflexivity|]); lia|]).
  lia.
Qed.

(** X9: [render_board] never raises, whatever the board, the highlights
    and the piece mode (any mode but [unicode] draws letters).  Its panel
    has nine lines, the header and the ranks from 8 down to 1; the line of
    a rank has its number and eight squares. *)
Theorem render_board_never_raises
  (b : BoardOf Pos) (last_move : option Move) (legal_moves : option (list Move))
  (piece_mode : string) :
  exists lines,
    board_display b last_move legal_moves (pieces_of_mode piece_mode) = Some lines
    /\ render_board b last_move legal_moves piece_mode
       = Some (mkPanel (join (text (String (ascii_of_nat 10) EmptyString) EmptyString)
                             lines)
                       "Chess Board" "blue")
    /\ List.length lines = 9
    /\ nth 0 lines [] = [("   a b c d e f g h", "bold blue")]
    /\ forall rank, rank < 8 ->
         List.length (nth (8 - rank) lines []) = 17
         /\ nth 0 (nth (8 - rank) lines []) (EmptyString, EmptyString)
            = (str (rank + 1), "bold blue").
Proof.
  destruct (board_display_lines b last_move legal_moves piece_mode) as (cell & D & _).
  exists (lines_of cell). split; [exact D|]. split.
  - unfold render_board. fold (pieces_of_mode piece_mode). now rewrite D.
  - split; [reflexivity|]. split; [reflexivity|].
    intros rank R.
    do 8 (destruct rank as [|rank]; [now split|]). lia.
Qed.

(** X10: a drawing can be read back.  In the lines that [render_board]
    draws, the glyph at a square stands, in the dict of the piece mode, for
    the symbol of the piece on that square and for no other; the glyph of
    an empty square stands for none. *)
Theorem drawing_shows_the_pieces
  (b : BoardOf Pos) (last_move : option Move) (legal_moves : option (list Move))
  (piece_mode : string) (lines : list Text) (file rank : nat) :
  file < 8 -> rank < 8 ->
  board_display b last_move legal_moves (pieces_of_mode piece_mode) = Some lines ->
  pieces_shown_as (pieces_of_mode piece_mode) (fst (shown_at lines file rank))
  = match piece_at (squares (position b)) (square file rank) with
    | Some pc => [symbol pc]
    | None => []
    end.
Proof.
  intros F R D.
  destruct (board_display_lines b last_move legal_moves piece_mode) as (cell & D' & C).
  rewrite D' in D. injection D as <-. rewrite shown_at_lines_of by assumption.
  destruct (render_square_glyph b last_move legal_moves piece_mode file rank)
    as (glyph & style & E & G).
  rewrite C in E. injection E as ->. exact G.
Qed.

(** The style of a square does not depend on the dict of glyphs, and the
    glyph does not depend on the highlights. *)
Lemma render_square_parts (b : BoardOf Pos) (lm lm' : option Move)
      (lg lg' : option (list Move)) (mode mode' : string) (file rank : nat)
      (c c' c'' : string * string) :
  render_square b lm lg (pieces_of_mode mode) file rank = Some [c] ->
  render_square b lm lg (pieces_of_mode mode') file rank = Some [c'] ->
  render_square b lm' lg' (pieces_of_mode mode) file rank = Some [c''] ->
  snd c = snd c'
  /\ (piece_at (squares (position b)) (square file rank) = None -> c = c')
  /\ fst c = fst c''.
Proof.
  unfold render_square.
  destruct (piece_at (squares (position b)) (square file rank)) as [pc|].
  - destruct (dict_get (pieces_of_mode mode) (symbol pc)); [|discriminate].
    destruct (dict_get (pieces_of_mode mode') (symbol pc)); [|discriminate].
    intros H H' H''. injection H as <-. injection H' as <-. injection H'' as <-.
    repeat split. discriminate.
  - intros H H' H''. injection H as <-. injection H' as <-. injection H'' as <-.
    now repeat split.
Qed.

(** X11: the piece mode changes glyphs only, and the highlights change
    styles only.  Two drawings of a board that differ in the piece mode
    give every square the same style, and an empty square the same text;
    two drawings that differ in the highlights give every square the same
    glyph. *)
Theorem modes_change_glyphs_and_highlights_change_styles
  (b : BoardOf Pos) (lm lm' : option Move) (lg lg' : option (list Move))
  (mode mode' : string) (lines lines' lines'' : list Text) (file rank : nat) :
  file < 8 -> rank < 8 ->
  board_display b lm lg (pieces_of_mode mode) = Some lines ->
  board_display b lm lg (pieces_of_mode mode') = Some lines' ->
  board_display b lm' lg' (pieces_of_mode mode) = Some lines'' ->
  snd (shown_at lines file rank) = snd (shown_at lines' file rank)
  /\ (piece_at (squares (position b)) (square file rank) = None ->
      shown_at lines file rank = shown_at lines' file rank)
  /\ fst (shown_at lines file rank) = fst (shown_at lines'' file rank).
Proof.
  intros F R D D' D''.
  destruct (board_display_lines b lm lg mode) as (cell & E & C).
  destruct (board_display_lines b lm lg mode') as (cell' & E' & C').
  destruct (board_display_lines b lm' lg' mode) as (cell'' & E'' & C'').
  rewrite E in D. rewrite E' in D'. rewrite E'' in D''.
  injection D as <-. injection D' as <-. injection D'' as <-.
  rewrite !shown_at_lines_of by assumption.
  eapply render_square_parts; [apply C|apply C'|apply C''].
Qed.

End RenderFacts.

(** *** Instances of these theorems *)

Import MoreFixtures.

Lemma history_is_the_move_stack_outside_pvc_witness :
  (game_mode pvp_game == "pvc") = false
  /\ in_step pvp_game
  /\ match snd (play_loop 3 pvp_game (mkLocals None None) ["e4"; "e5"]) with
     | Finished g' | StillRunning g' _ _ => move_history g' = move_stack (board g')
     | Raised _ => True
     end.
Proof.
  assert (H1 : (game_mode pvp_game == "pvc") = false) by (vm_compute; reflexivity).
  assert (H2 : in_step pvp_game) by (vm_compute; reflexivity).
  split; [exact H1|]. split; [exact H2|].
  exact (@history_is_the_move_stack_outside_pvc
           Pos rules pvp_game 3 (mkLocals None None) ["e4"; "e5"] H1 H2).
Defined.

Lemma play_outside_pvc_never_raises_index_error_witness :
  (game_mode pvp_game == "pvc") = false
  /\ List.length (move_history pvp_game) <= List.length (move_stack (board pvp_game))
  /\ match snd (play_loop 4 pvp_game (mkLocals None None)
                         ["undo"; "e4"; "pieces letters"; "undo"]) with
     | Finished g' | StillRunning g' _ _ =>
         (game_mode g' == "pvc") = false
         /\ List.length (move_history g') <= List.length (move_stack (board g'))
     | Raised e => e = EOFError
     end.
Proof.
  assert (H1 : (game_mode pvp_game == "pvc") = false) by (vm_compute; reflexivity).
  assert (H2 : List.length (move_history pvp_game)
               <= List.length (move_stack (board pvp_game)))
    by (vm_compute; lia).
  split; [exact H1|]. split; [exact H2|].
  exact (@play_outside_pvc_never_raises_index_error
           Pos rules pvp_game 4 (mkLocals None None)
           ["undo"; "e4"; "pieces letters"; "undo"] H1 H2).
Defined.

Lemma failed_engine_call_skips_the_prompt_witness :
  game_mode stalled_after_e4 = "pvc"
  /\ turn (position (board stalled_after_e4)) = Black
  /\ engine stalled_after_e4 = Some dead_engine
  /\ (engine_play dead_engine (board stalled_after_e4)
        = PlayRaises "engine process died"
      \/ (engine_play dead_engine (board stalled_after_e4) = PlayResult None
          /\ "engine process died" = Msg.none_has_no_from_square))
  /\ markup_free "engine process died" = true
  /\ loop_body stalled_after_e4 (mkLocals None None) ["quit"]
     = inl (Continue, stalled_after_e4, mkLocals None None, ["quit"],
            [BoardPanel (board stalled_after_e4) None None
                        (piece_mode stalled_after_e4);
             Print (Msg.computer_move_error "engine process died")]).
Proof.
  assert (H1 : game_mode stalled_after_e4 = "pvc") by (vm_compute; reflexivity).
  assert (H2 : turn (position (board stalled_after_e4)) = Black)
    by (vm_compute; reflexivity).
  assert (H3 : engine stalled_after_e4 = Some dead_engine)
    by (vm_compute; reflexivity).
  assert (H4 : engine_play dead_engine (board stalled_after_e4)
               = PlayRaises "engine process died"
               \/ (engine_play dead_engine (board stalled_after_e4) = PlayResult None
                   /\ "engine process died" = Msg.none_has_no_from_square))
    by (left; vm_compute; reflexivity).
  assert (H5 : markup_free "engine process died" = true) by (vm_compute; reflexivity).
  split; [exact H1|]. split; [exact H2|]. split; [exact H3|].
  split; [exact H4|]. split; [exact H5|].
  exact (@failed_engine_call_skips_the_prompt
           Pos rules stalled_after_e4 dead_engine "engine process died"
           (mkLocals None None) ["quit"] H1 H2 H3 H4 H5).
Defined.

Lemma other_lines_are_tried_as_moves_witness :
  is_command (command_text "  e4 ") = false
  /\ exists ok g' loc' out,
      make_move pvp_game (PyStr.strip "  e4 ") = (ok, g', out)
      /\ player_turn pvp_game (mkLocals None None) ["  e4 "]
         = inl (Continue, g', loc', [], turn_prompt pvp_game :: out)
      /\ (ok = false -> g' = pvp_game /\ loc' = mkLocals None None)
      /\ (ok = true ->
          exists m,
            move_history g' = move_history pvp_game ++ [m]
            /\ last_move loc' = Some m
            /\ legal_moves loc'
               = Some (generate_legal_moves (position (board g')))).
Proof.
  assert (H : is_command (command_text "  e4 ") = false) by (vm_compute; reflexivity).
  split; [exact H|].
  exact (@other_lines_are_tried_as_moves
           Pos rules pvp_game (mkLocals None None) "  e4 " [] H).
Defined.

Lemma undo_takes_back_moves_from_any_game_witness :
  make_moves after_e4 ["e5"; "Nf3"] = Some (after after_e4 ["e5"; "Nf3"])
  /\ undo_times (List.length ["e5"; "Nf3"]) (after after_e4 ["e5"; "Nf3"])
     = Some after_e4.
Proof.
  assert (H : make_moves after_e4 ["e5"; "Nf3"] = Some (after after_e4 ["e5"; "Nf3"]))
    by (vm_compute; reflexivity).
  split; [exact H|].
  exact (@undo_takes_back_moves_from_any_game Pos rules _ _ _ H).
Defined.

Lemma first_usable_path_gives_the_engine_witness :
  find (usable (host_with e5_engine) 2%Z) (get_stockfish_paths (host_with e5_engine))
  = Some "/usr/bin/stockfish"
  /\ exists e,
      popen_uci (host_with e5_engine) "/usr/bin/stockfish" = Some e
      /\ accepts_skill_level e 2%Z = true
      /\ init (host_with e5_engine) "pvc" 2%Z
         = (mkGame new_board "pvc" 2%Z [] (Some e) "unicode", []).
Proof.
  assert (H : find (usable (host_with e5_engine) 2%Z)
                   (get_stockfish_paths (host_with e5_engine))
              = Some "/usr/bin/stockfish") by (vm_compute; reflexivity).
  split; [exact H|].
  exact (@first_usable_path_gives_the_engine
           Pos rules (host_with e5_engine) 2%Z "/usr/bin/stockfish" H).
Defined.

Lemma fallback_keeps_the_last_engine_started_witness :
  find (usable (host_with picky_engine) 2%Z)
       (get_stockfish_paths (host_with picky_engine)) = None
  /\ init (host_with picky_engine) "pvc" 2%Z
     = (mkGame new_board "pvp" 2%Z []
               (last (map Some (launched (host_with picky_engine)
                                         (get_stockfish_paths (host_with picky_engine))))
                     None)
               "unicode",
        [Print Msg.stockfish_not_found; Print Msg.defaulting_to_pvp]).
Proof.
  assert (H : find (usable (host_with picky_engine) 2%Z)
                   (get_stockfish_paths (host_with picky_engine)) = None)
    by (vm_compute; reflexivity).
  split; [exact H|].
  exact (@fallback_keeps_the_last_engine_started Pos rules (host_with picky_engine) 2%Z H).
Defined.

(** On that machine the session is in [pvp] mode and holds the engine. *)
Example unconfigured_engine_is_kept :
  game_mode (fst (init (host_with picky_engine) "pvc" 2%Z)) = "pvp"
  /\ engine (fst (init (host_with picky_engine) "pvc" 2%Z)) = Some picky_engine.
Proof. split; vm_compute; reflexivity. Qed.

Lemma pvc_session_has_a_configured_engine_witness :
  game_mode (fst (init (host_with e5_engine) "pvc" 2%Z)) = "pvc"
  /\ exists e,
      engine (fst (init (host_with e5_engine) "pvc" 2%Z)) = Some e
      /\ accepts_skill_level e 2%Z = true.
Proof.
  assert (H : game_mode (fst (init (host_with e5_engine) "pvc" 2%Z)) = "pvc")
    by (vm_compute; reflexivity).
  split; [exact H|].
  exact (@pvc_session_has_a_configured_engine Pos rules (host_with e5_engine) "pvc" 2%Z H).
Defined.

Lemma path_found_by_which_is_probed_witness :
  which_stockfish host_with_path = Some "/opt/chess/stockfish"
  /\ "/opt/chess/stockfish" <> EmptyString
  /\ In "/opt/chess/stockfish" (get_stockfish_paths host_with_path).
Proof.
  assert (H1 : which_stockfish host_with_path = Some "/opt/chess/stockfish")
    by reflexivity.
  assert (H2 : "/opt/chess/stockfish" <> EmptyString) by discriminate.
  split; [exact H1|]. split; [exact H2|].
  exact (@path_found_by_which_is_probed Pos host_with_path "/opt/chess/stockfish" H1 H2).
Defined.

Lemma drawing_shows_the_pieces_witness :
  4 < 8 /\ 0 < 8
  /\ Render.board_display (board pvp_game) None None (Render.pieces_of_mode "unicode")
     = Some (drawn (board pvp_game) None None "unicode")
  /\ Render.pieces_shown_as
       (Render.pieces_of_mode "unicode")
       (fst (Render.shown_at (drawn (board pvp_game) None None "unicode") 4 0))
     = match piece_at (squares (position (board pvp_game))) (square 4 0) with
       | Some pc => [Render.symbol pc]
       | None => []
       end.
Proof.
  assert (H1 : 4 < 8) by lia.
  assert (H2 : 0 < 8) by lia.
  assert (H3 : Render.board_display (board pvp_game) None None
                                    (Render.pieces_of_mode "unicode")
               = Some (drawn (board pvp_game) None None "unicode"))
    by (vm_compute; reflexivity).
  split; [exact H1|]. split; [exact H2|]. split; [exact H3|].
  exact (@RenderFacts.drawing_shows_the_pieces
           (board pvp_game) None None "unicode" _ 4 0 H1 H2 H3).
Defined.

(** The white king on e1, as a glyph and as a letter. *)
Example white_king_is_drawn_on_e1 :
  Render.shown_at (drawn (board pvp_game) None None "unicode") 4 0
  = ("♔", "bold white on bright_white")
  /\ Render.shown_at (drawn (board pvp_game) None None "letters") 4 0
     = ("K", "bold white on bright_white").
Proof. split; vm_compute; reflexivity. Qed.

Lemma modes_change_glyphs_and_highlights_change_styles_witness :
  4 < 8 /\ 3 < 8
  /\ Render.board_display (board after_e4) None None (Render.pieces_of_mode "unicode")
     = Some (drawn (board after_e4) None None "unicode")
  /\ Render.board_display (board after_e4) None None (Render.pieces_of_mode "letters")
     = Some (drawn (board after_e4) None None "letters")
  /\ Render.board_display (board after_e4) (Some (mkMove 12 28 None)) None
                          (Render.pieces_of_mode "unicode")
     = Some (drawn (board after_e4) (Some (mkMove 12 28 None)) None "unicode")
  /\ snd (Render.shown_at (drawn (board after_e4) None None "unicode") 4 3)
     = snd (Render.shown_at (drawn (board after_e4) None None "letters") 4 3).
Proof.
  assert (H1 : 4 < 8) by lia.
  assert (H2 : 3 < 8) by lia.
  assert (H3 : Render.board_display (board after_e4) None None
                                    (Render.pieces_of_mode "unicode")
               = Some (drawn (board after_e4) None None "unicode"))
    by (vm_compute; reflexivity).
  assert (H4 : Render.board_display (board after_e4) None None
                                    (Render.pieces_of_mode "letters")
               = Some (drawn (board after_e4) None None "letters"))
    by (vm_compute; reflexivity).
  assert (H5 : Render.board_display (board after_e4) (Some (mkMove 12 28 None)) None
                                    (Render.pieces_of_mode "unicode")
               = Some (drawn (board after_e4) (Some (mkMove 12 28 None)) None "unicode"))
    by (vm_compute; reflexivity).
  split; [exact H1|]. split; [exact H2|]. split; [exact H3|].
  split; [exact H4|]. split; [exact H5|].
  exact (proj1 (@RenderFacts.modes_change_glyphs_and_highlights_change_styles
                  (board after_e4) None (Some (mkMove 12 28 None)) None None
                  "unicode" "letters" _ _ _ 4 3 H1 H2 H3 H4 H5)).
Defined.
